(** * getresults_tx.event_handlers: a shallow embedding

    The module [getresults_tx/event_handlers.py] relays files that appear in
    a watched directory to a remote folder over scp, then archives or
    deletes the local original and writes a [History] row.

    Python values are embedded as follows: [str] is [string]; a value whose
    type the handler inspects at run time (the routing selection) is a
    [pyval]; a dict is a [gmap]; a raised exception is an [exn] carrying its
    class and its message; code with side effects runs in the monad [M],
    which threads a [World] and keeps the effects made before a raise. *)

From Stdlib Require Import ZArith Ascii String List Lia Bool.
From stdpp Require Import base option gmap strings list.

Local Open Scope string_scope.
#[local] Arguments String.append !_ _ : simpl nomatch.

(** ** Python strings *)

Module PyStr.

(** [s.split(c)] for a one-character separator: every occurrence of [c]
    ends a field, so the result always has at least one element. *)
Fixpoint split (c : ascii) (s : string) : list string :=
  match s with
  | EmptyString => [EmptyString]
  | String a s' =>
      if Ascii.eqb a c then EmptyString :: split c s'
      else match split c s' with
           | [] => [String a EmptyString]
           | w :: ws => String a w :: ws
           end
  end.

(** [sep.join(l)] *)
Fixpoint join (sep : string) (l : list string) : string :=
  match l with
  | [] => EmptyString
  | [x] => x
  | x :: rest => x +:+ sep +:+ join sep rest
  end.

(** [sub in s] on strings: [sub] occurs in [s] as a contiguous run. *)
Fixpoint contains (sub s : string) : bool :=
  String.prefix sub s
  || match s with
     | EmptyString => false
     | String _ s' => contains sub s'
     end.

(** number of occurrences of the character [c] *)
Fixpoint count (c : ascii) (s : string) : nat :=
  match s with
  | EmptyString => 0
  | String a s' => (if Ascii.eqb a c then 1 else 0) + count c s'
  end.

(** [l[-1:][0]]: the slice keeps the last element (or nothing when [l] is
    empty), and indexing it at 0 is what can fail. *)
Definition last_item {A} (l : list A) : option A :=
  head (drop (length l - 1) l).

(** [os.path.join(a, b)] on POSIX for two components. *)
Definition path_join (a b : string) : string :=
  match b with
  | String "/" _ => b
  | _ =>
      if String.eqb a "" then b
      else match last_item (list_ascii_of_string a) with
           | Some "/"%char => a +:+ b
           | _ => a +:+ "/" +:+ b
           end
  end.

(** [string.ascii_uppercase + string.digits] *)
Definition ascii_uppercase : string := "ABCDEFGHIJKLMNOPQRSTUVWXYZ".
Definition digits : string := "0123456789".

Definition is_upper_or_digit (a : ascii) : bool :=
  let n := nat_of_ascii a in
  (Nat.leb 65 n && Nat.leb n 90) || (Nat.leb 48 n && Nat.leb n 57).

Definition all_chars (p : ascii -> bool) (s : string) : bool :=
  forallb p (list_ascii_of_string s).

End PyStr.

(** ** Archive names *)

(** [random.SystemRandom().choice(seq)]: the generator yields a number and
    the element at that index below [len(seq)] is returned.  [r] is the raw
    draw; reducing it modulo the length gives every index and only
    indices. *)
Definition choice (r : nat) (seq : string) : string :=
  match String.get (r mod String.length seq) seq with
  | Some a => String a EmptyString
  | None => EmptyString
  end.

(** [''.join(choice(ascii_uppercase + digits) for _ in range(5))], where
    [rand i] is the draw of the [i]-th iteration. *)
Definition random_suffix (rand : nat -> nat) : string :=
  PyStr.join "" (map (fun i => choice (rand i) (PyStr.ascii_uppercase +:+ PyStr.digits))
                     (seq 0 5)).

(** [RemoteFolderEventHandler.archive_filename] *)
Definition archive_filename (rand : nat -> nat) (filename : string) : string :=
  let suffix := random_suffix rand in
  let '(f, ext) :=
    match PyStr.split "." filename with
    | [f; ext] => (f, ext)
    | _ => (filename, "")             (* except ValueError *)
    end in
  PyStr.join "." [f +:+ "_" +:+ suffix; ext].

(** The regular expression [stem_[A-Z0-9]{5}\.ext], anchored at both ends:
    the literal stem and underscore, five characters of the class, then the
    literal dot and extension. *)
Fixpoint strip_prefix (p s : string) : option string :=
  match p, s with
  | EmptyString, _ => Some s
  | String a p', String b s' => if Ascii.eqb a b then strip_prefix p' s' else None
  | String _ _, EmptyString => None
  end.

Fixpoint strip_class (p : ascii -> bool) (n : nat) (s : string) : option string :=
  match n, s with
  | 0, _ => Some s
  | S n', String a s' => if p a then strip_class p n' s' else None
  | S _, EmptyString => None
  end.

Definition matches_archive_pattern (stem ext s : string) : bool :=
  match strip_prefix (stem +:+ "_") s with
  | Some r =>
      match strip_class PyStr.is_upper_or_digit 5 r with
      | Some r' => String.eqb r' ("." +:+ ext)
      | None => false
      end
  | None => false
  end.

(** ** Exceptions, dynamically typed values, outcomes *)

Set Warnings "-register-all".

(** The classes the module names, any other class by its name, and a
    class declared as a subclass of another: an [except] clause catches
    the instances of its class and of every class derived from it. *)
Inductive exn_class :=
  | TypeError | ValueError | KeyError | AttributeError | IndexError
  | FileNotFoundError | IsADirectoryError
  | AuthenticationException | BadHostKeyException
  | OtherException (name : string)
  | Subclass (name : string) (base : exn_class).

Record exn := Exn { exn_class_of : exn_class; exn_msg : string }.

Definition same_class (c k : exn_class) : bool :=
  match c, k with
  | TypeError, TypeError | ValueError, ValueError | KeyError, KeyError
  | AttributeError, AttributeError | IndexError, IndexError
  | FileNotFoundError, FileNotFoundError
  | IsADirectoryError, IsADirectoryError
  | AuthenticationException, AuthenticationException
  | BadHostKeyException, BadHostKeyException => true
  | OtherException a, OtherException b => String.eqb a b
  | Subclass a _, Subclass b _ => String.eqb a b
  | _, _ => false
  end.

(** [issubclass(k, c)] *)
Fixpoint derives_from (c k : exn_class) : bool :=
  same_class c k
  || match k with
     | Subclass _ base => derives_from c base
     | _ => false
     end.

(** [isinstance(e, c)], the test of [except c] *)
Definition is_class (c : exn_class) (e : exn) : bool :=
  derives_from c (exn_class_of e).

Inductive outcome (A : Type) :=
  | Ok (a : A)
  | Raise (e : exn).
Arguments Ok {A} a.
Arguments Raise {A} e.

(** A value whose type is only known at run time.  Lists and tuples behave
    alike under [isinstance(v, (list, tuple))], indexing and unpacking, so
    one constructor stands for both. *)
Inductive pyval :=
  | PNone
  | PStr (s : string)
  | PInt (z : Z)
  | PSeq (items : list pyval).

(** [a, b = v]: two targets.  A sequence of another length is a
    [ValueError]; a string is iterated character by character; a value
    that cannot be iterated is a [TypeError]. *)
Definition unpack2 (v : pyval) : outcome (pyval * pyval) :=
  match v with
  | PSeq [a; b] => Ok (a, b)
  | PSeq items =>
      Raise (Exn ValueError
               (if Nat.ltb (length items) 2 then "not enough values to unpack (expected 2)"
                else "too many values to unpack (expected 2)"))
  | PStr s =>
      match list_ascii_of_string s with
      | [a; b] => Ok (PStr (String a EmptyString), PStr (String b EmptyString))
      | cs =>
          Raise (Exn ValueError
                   (if Nat.ltb (length cs) 2 then "not enough values to unpack (expected 2)"
                    else "too many values to unpack (expected 2)"))
      end
  | PNone => Raise (Exn TypeError "cannot unpack non-iterable NoneType object")
  | PInt _ => Raise (Exn TypeError "cannot unpack non-iterable int object")
  end.

(** ** The world the handler acts on *)

(** What [os.stat] and [magic.from_file] report of an ordinary file. *)
Record FileStat := {
  st_size : Z;
  st_mtime : Z;
  content_type : string;
}.

(** The dict built by [statinfo], with the key [archive_filename] that
    [process_added] adds later. *)
Record FileInfo := {
  fi_path : string;
  fi_filename : string;
  fi_size : Z;
  fi_timestamp : Z;
  fi_archive_filename : option string;
}.

(** Modelled from the spec: the [History] model of [getresults_tx.models]
    is not part of the sources; its fields are the keyword arguments that
    [update_history] passes, and [archive_name] is [history.archive.name]. *)
Record History := {
  h_hostname : string;
  h_remote_hostname : string;
  h_path : string;
  h_remote_path : string;
  h_remote_folder : string;
  h_remote_folder_hint : pyval;
  h_archive_path : option string;
  h_filename : string;
  h_filesize : Z;
  h_filetimestamp : Z;
  h_mime_type : string;
  h_status : string;
  h_sent_datetime : Z;
  h_user : string;
  h_archive_name : option string;
}.

(** Modelled from the spec: a row of the [RemoteFolder] model (a routing
    rule), also declared in [getresults_tx.models]. *)
Record RemoteFolder := {
  base_path : string;
  folder : string;
  name : string;
  file_hint : string;
}.

(** Side effects in the order they happen. *)
Inductive effect :=
  | Connected (host : string)
  | Copied (source destination : string)
  | Saved (row : History)
  | Renamed (source destination : string)
  | Removed (path : string).

Record World := {
  local_files : gmap string FileStat;     (* ordinary files, by path *)
  history_rows : list History;            (* the History table *)
  trace : list effect;                    (* oldest first *)
  clock : Z;                              (* timezone.now() *)
  drawn : nat;                            (* draws taken from the generator *)
  _destination_subdirs : gmap string (gmap string string);
  _remote_subfolders : option (gmap string (gmap string string));
}.

Definition M (A : Type) : Type := World -> outcome A * World.

#[global] Instance M_ret : MRet M := fun A a w => (Ok a, w).
#[global] Instance M_bind : MBind M := fun A B f m w =>
  match m w with
  | (Ok a, w') => f a w'
  | (Raise e, w') => (Raise e, w')
  end.

Definition raise {A} (e : exn) : M A := fun w => (Raise e, w).
Definition get_world : M World := fun w => (Ok w, w).
Definition put_world (w : World) : M unit := fun _ => (Ok tt, w).
Definition lift {A} (o : outcome A) : M A := fun w => (o, w).
Definition modify (f : World -> World) : M unit := fun w => (Ok tt, f w).

(** [try: m  except cls: h] *)
Definition try_except {A} (m : M A) (cls : exn_class) (h : exn -> M A) : M A :=
  fun w =>
    match m w with
    | (Raise e, w') => if is_class cls e then h e w' else (Raise e, w')
    | r => r
    end.

Definition set_files (f : gmap string FileStat) (w : World) : World :=
  {| local_files := f; history_rows := history_rows w; trace := trace w;
     clock := clock w; drawn := drawn w;
     _destination_subdirs := _destination_subdirs w;
     _remote_subfolders := _remote_subfolders w |}.

Definition set_rows (r : list History) (w : World) : World :=
  {| local_files := local_files w; history_rows := r; trace := trace w;
     clock := clock w; drawn := drawn w;
     _destination_subdirs := _destination_subdirs w;
     _remote_subfolders := _remote_subfolders w |}.

Definition log (e : effect) (w : World) : World :=
  {| local_files := local_files w; history_rows := history_rows w;
     trace := trace w ++ [e];
     clock := clock w; drawn := drawn w;
     _destination_subdirs := _destination_subdirs w;
     _remote_subfolders := _remote_subfolders w |}.

Definition set_drawn (n : nat) (w : World) : World :=
  {| local_files := local_files w; history_rows := history_rows w; trace := trace w;
     clock := clock w; drawn := n;
     _destination_subdirs := _destination_subdirs w;
     _remote_subfolders := _remote_subfolders w |}.

Definition set_destination_subdirs (d : gmap string (gmap string string)) (w : World) : World :=
  {| local_files := local_files w; history_rows := history_rows w; trace := trace w;
     clock := clock w; drawn := drawn w;
     _destination_subdirs := d;
     _remote_subfolders := _remote_subfolders w |}.

Definition set_remote_subfolders (d : gmap string (gmap string string)) (w : World) : World :=
  {| local_files := local_files w; history_rows := history_rows w; trace := trace w;
     clock := clock w; drawn := drawn w;
     _destination_subdirs := _destination_subdirs w;
     _remote_subfolders := Some d |}.

(** ** The handler object and its collaborators *)

Inductive event_kind := Created | Modified | Deleted | Moved.

(** A watchdog [FileSystemEvent]; [dest_path] exists on moved events only. *)
Record Event := {
  event_type : event_kind;
  src_path : string;
  dest_path : option string;
  is_directory : bool;
}.

(** The attributes the methods read from [self].  [hostname], [user],
    [patterns] and [ignore_directories] are set by the constructors; the
    other four are never assigned in this module and are expected on the
    instance. *)
Record Handler := {
  hostname : string;
  user : string;
  patterns : list string;
  ignore_directories : bool;
  source_dir : string;
  destination_dir : string;
  archive_dir : option string;
  mime_types : option (list string);
}.

(** What the module calls but does not define. *)
Record Env := {
  (* socket.gethostname() *)
  gethostname : string;
  (* SSHClient.connect(hostname, timeout): the exception it raises, if any *)
  ssh_connect : string -> option exn;
  (* SCPClient.put(source, destination): the exception it raises, if any *)
  scp_put : string -> string -> option exn;
  (* the attribute folder_handler.select: None, or a function of
     filename, mime_type and the default destination *)
  select : option (string -> string -> string -> outcome pyval);
  (* the attribute self.remote_folder, which this module never defines *)
  remote_folder : option (string -> string -> string);
  (* the rows of the RemoteFolder table *)
  remote_folder_rows : list RemoteFolder;
  (* the numbers random.SystemRandom() yields, in order *)
  entropy : nat -> nat;
  (* what other processes do to the source directory after the file has
     been classified and before [put] looks at it *)
  race : gmap string FileStat -> gmap string FileStat;
  (* os.rename(source, destination) on an existing source: the exception
     it raises when the move cannot be made (the destination directory is
     missing or on another file system, no permission), if any *)
  rename_error : string -> string -> option exn;
  (* tz.localize(datetime.fromtimestamp(t)): the instant that is recorded
     for the modification time t; it depends on the time zone of the
     system and on settings.TIME_ZONE *)
  local_timestamp : Z -> Z;
  (* how the installed watchdog compares the path of an event with one
     pattern *)
  path_match : string -> string -> bool;
}.

(** [x or default] for a string that may be None *)
Definition str_or (x : option string) (default : string) : string :=
  match x with
  | Some s => if String.eqb s "" then default else s
  | None => default
  end.

(** truth value of a string that may be None *)
Definition truthy (x : option string) : bool :=
  match x with
  | Some s => negb (String.eqb s "")
  | None => false
  end.

(** [BaseEventHandler.__init__] called from [RemoteFolderEventHandler.__init__]
    with [patterns=['*.*']]; [os_user] is [pwd.getpwuid(os.getuid()).pw_name]. *)
Definition RemoteFolderEventHandler_init
    (hostname : option string) (os_user : string)
    (source_dir destination_dir : string)
    (archive_dir : option string) (mime_types : option (list string)) : Handler :=
  {| hostname := str_or hostname "localhost";
     user := os_user;
     patterns := ["*.*"];
     ignore_directories := true;
     source_dir := source_dir;
     destination_dir := destination_dir;
     archive_dir := archive_dir;
     mime_types := mime_types |}.

(** The instance state after [__init__]: [_destination_subdirs] is the empty
    dict and [_remote_subfolders] has not been assigned. *)
Definition init_world (files : gmap string FileStat) (now : Z) : World :=
  {| local_files := files; history_rows := []; trace := []; clock := now;
     drawn := 0; _destination_subdirs := ∅; _remote_subfolders := None |}.

(** [fnmatch.fnmatch(name, pattern)] for patterns made of [*], [?] and
    literal characters.  Releases of watchdog differ in what they hand to
    it: the whole path of the event ([fnmatch] below), or its final segment
    ([fnmatch_name]); [path_match] of the environment says which. *)
Fixpoint fnmatch_chars (pat : list ascii) : list ascii -> bool :=
  match pat with
  | [] => fun s => match s with [] => true | _ => false end
  | "*"%char :: pat' =>
      fix star (s : list ascii) : bool :=
        fnmatch_chars pat' s
        || match s with
           | [] => false
           | _ :: s' => star s'
           end
  | "?"%char :: pat' =>
      fun s => match s with
               | [] => false
               | _ :: s' => fnmatch_chars pat' s'
               end
  | c :: pat' =>
      fun s => match s with
               | [] => false
               | a :: s' => Ascii.eqb a c && fnmatch_chars pat' s'
               end
  end.

Definition fnmatch (path pattern : string) : bool :=
  fnmatch_chars (list_ascii_of_string pattern) (list_ascii_of_string path).

Definition fnmatch_name (path pattern : string) : bool :=
  match PyStr.last_item (PyStr.split "/" path) with
  | Some segment => fnmatch segment pattern
  | None => false
  end.

(** The result of [put]: [None], or the pair [(fileinfo, selection)]. *)
Inductive put_result :=
  | PutNone
  | PutPair (fileinfo : option FileInfo) (selection : pyval).

(** What [destination_subdir] can return: the inner dict of a base
    destination, or a path. *)
Inductive subdir_result :=
  | SubMap (m : gmap string string)
  | SubPath (s : string).

Fixpoint for_each {A} (l : list A) (body : A -> M unit) : M unit :=
  match l with
  | [] => mret tt
  | x :: rest => body x ≫= fun _ => for_each rest body
  end.

Section RemoteFolderEventHandler.

Variable env : Env.
(** The constant imported from [.models]. *)
Variable TX_SENT : string.

(** [BaseEventHandler.connect]; the timeout only reaches [ssh.connect],
    whose outcome [ssh_connect env] gives.  [AuthenticationException] is
    built from one message.  [BadHostKeyException] cannot be: paramiko
    declares it with the three parameters hostname, got_key and
    expected_key, so the call with the one formatted message raises a
    [TypeError] in place of the exception it was to build. *)
Definition connect (self : Handler) : M unit :=
  match ssh_connect env (hostname self) with
  | None => modify (log (Connected (hostname self)))
  | Some e =>
      if is_class AuthenticationException e then
        raise (Exn AuthenticationException
                 ("Got " +:+ exn_msg e +:+ ". Add user " +:+ user self
                  +:+ " to authorized_keys on host " +:+ hostname self))
      else if is_class BadHostKeyException e then
        raise (Exn TypeError
                 "__init__() missing 2 required positional arguments: 'got_key' and 'expected_key'")
      else raise e
  end.

(** [RemoteFolderEventHandler.select_destination_dir] *)
Definition select_destination_dir (self : Handler) (filename mime_type : string) : M pyval :=
  try_except
    (match select env with
     | Some f => lift (f filename mime_type (destination_dir self))
     | None => raise (Exn TypeError "'NoneType' object is not callable")
     end)
    TypeError
    (fun e =>
       if PyStr.contains "object is not callable" (exn_msg e)
       then mret (PStr (destination_dir self))
       else raise e).

(** [RemoteFolderEventHandler.destination_subdirs] (a property) *)
Definition destination_subdirs (self : Handler) : M (gmap string (gmap string string)) :=
  w ← get_world;
  (if negb (match _destination_subdirs w !! destination_dir self with
            | Some inner => negb (bool_decide (inner = ∅))
            | None => false
            end)
   then
     put_world (set_destination_subdirs {[ destination_dir self := ∅ ]} w) ≫= fun _ =>
     for_each
       (List.filter (fun r => String.eqb (base_path r) (destination_dir self))
                    (remote_folder_rows env))
       (fun r =>
          fldr ← match remote_folder env with
                 | Some f => mret (f (destination_dir self) (folder r))
                 | None =>
                     raise (Exn AttributeError
                              "'RemoteFolderEventHandler' object has no attribute 'remote_folder'")
                 end;
          w1 ← get_world;
          match _remote_subfolders w1 with
          | None =>
              raise (Exn AttributeError
                       "'RemoteFolderEventHandler' object has no attribute '_remote_subfolders'")
          | Some subfolders =>
              match subfolders !! destination_dir self with
              | None => raise (Exn KeyError (destination_dir self))
              | Some inner =>
                  put_world
                    (set_remote_subfolders
                       (<[ destination_dir self :=
                             <[ file_hint r := fldr ]> (<[ name r := fldr ]> inner) ]>
                          subfolders) w1)
              end
          end)
   else mret tt) ≫= fun _ =>
  w2 ← get_world;
  mret (_destination_subdirs w2).

(** [RemoteFolderEventHandler.destination_subdir] *)
Definition destination_subdir (self : Handler) (key : string) : M subdir_result :=
  try_except
    (d ← destination_subdirs self;
     match d !! key with
     | Some inner => mret (SubMap inner)
     | None => raise (Exn KeyError key)
     end)
    KeyError
    (fun _ => mret (SubPath (destination_dir self))).

(** [RemoteFolderEventHandler.statinfo]; the timestamp is the modification
    time as [tz.localize(datetime.fromtimestamp(...))] turns it into an
    instant. *)
Definition statinfo (self : Handler) (path filename : string) : M FileInfo :=
  w ← get_world;
  match local_files w !! PyStr.path_join (source_dir self) filename with
  | Some st =>
      mret {| fi_path := path; fi_filename := filename;
              fi_size := st_size st;
              fi_timestamp := local_timestamp env (st_mtime st);
              fi_archive_filename := None |}
  | None => raise (Exn FileNotFoundError (PyStr.path_join (source_dir self) filename))
  end.

(** [RemoteFolderEventHandler.put] *)
Definition put (self : Handler) (filename mime_type : string) : M put_result :=
  selection ← select_destination_dir self filename mime_type;
  dest ←
    match selection with
    | PSeq (first :: _) => mret first
    | PSeq [] => raise (Exn IndexError "list index out of range")
    | v => mret v
    end;
  let source_filename := PyStr.path_join (source_dir self) filename in
  destination_filename ←
    match dest with
    | PStr d => mret (PyStr.path_join d filename)
    | _ => raise (Exn TypeError "expected str, bytes or os.PathLike object")
    end;
  w ← get_world;
  if negb (bool_decide (is_Some (local_files w !! source_filename))) then
    mret PutNone
  else
    fileinfo ← statinfo self (source_dir self) filename;
    fileinfo ←
      try_except
        (match scp_put env source_filename destination_filename with
         | None =>
             _ ← modify (log (Copied source_filename destination_filename));
             mret (Some fileinfo)
         | Some e => raise e
         end)
        IsADirectoryError
        (fun _ => mret None);
    mret (PutPair fileinfo selection).

(** [history.archive.name = 'archive/{}'.format(name)] *)
Definition set_archive_name (history : History) (a : string) : History :=
  {| h_hostname := h_hostname history;
     h_remote_hostname := h_remote_hostname history;
     h_path := h_path history;
     h_remote_path := h_remote_path history;
     h_remote_folder := h_remote_folder history;
     h_remote_folder_hint := h_remote_folder_hint history;
     h_archive_path := h_archive_path history;
     h_filename := h_filename history;
     h_filesize := h_filesize history;
     h_filetimestamp := h_filetimestamp history;
     h_mime_type := h_mime_type history;
     h_status := h_status history;
     h_sent_datetime := h_sent_datetime history;
     h_user := h_user history;
     h_archive_name := Some ("archive/" +:+ a) |}.

(** [history.save()] *)
Definition save (history : History) : M unit :=
  modify (fun w => log (Saved history) (set_rows (history_rows w ++ [history]) w)).

(** [RemoteFolderEventHandler.update_history]; its third parameter, which
    the source names [destination_dir] and rebinds, is [selection] before
    the unpacking and [dest] after it. *)
Definition update_history (self : Handler) (fileinfo : FileInfo) (status : string)
    (selection : pyval) (mime_type : string) : M unit :=
  unpacked ←
    try_except
      (lift (unpack2 selection))
      ValueError
      (fun _ => mret (selection, PNone));
  let dest : pyval := fst unpacked in
  let folder_hint : pyval := snd unpacked in
  remote_folder ←
    try_except
      (match dest with
       | PStr d =>
           match PyStr.last_item (PyStr.split "/" d) with
           | Some seg => mret seg
           | None => raise (Exn IndexError "list index out of range")
           end
       | _ => raise (Exn AttributeError "object has no attribute 'split'")
       end)
      AttributeError
      (fun _ => mret "default");
  w ← get_world;
  let history :=
    {| h_hostname := gethostname env;
       h_remote_hostname := hostname self;
       h_path := source_dir self;
       h_remote_path := destination_dir self;
       h_remote_folder := remote_folder;
       h_remote_folder_hint := folder_hint;
       h_archive_path := archive_dir self;
       h_filename := fi_filename fileinfo;
       h_filesize := fi_size fileinfo;
       h_filetimestamp := fi_timestamp fileinfo;
       h_mime_type := mime_type;
       h_status := status;
       h_sent_datetime := clock w;
       h_user := user self;
       h_archive_name := None |} in
  history ←
    (if truthy (archive_dir self) then
       match fi_archive_filename fileinfo with
       | Some a => mret (set_archive_name history a)
       | None => raise (Exn KeyError "archive_filename")
       end
     else mret history);
  save history.

(** [os.rename] and [os.remove] on the local files.  A rename that cannot
    be made raises and leaves the source where it is. *)
Definition os_rename (source destination : string) : M unit := fun w =>
  match local_files w !! source with
  | Some st =>
      match rename_error env source destination with
      | Some e => (Raise e, w)
      | None =>
          (Ok tt, log (Renamed source destination)
                    (set_files (<[ destination := st ]> (delete source (local_files w))) w))
      end
  | None => (Raise (Exn FileNotFoundError source), w)
  end.

Definition os_remove (path : string) : M unit := fun w =>
  match local_files w !! path with
  | Some _ => (Ok tt, log (Removed path) (set_files (delete path (local_files w)) w))
  | None => (Raise (Exn FileNotFoundError path), w)
  end.

(** [magic.from_file(path, mime=True)]: the type of an existing file; on a
    missing file the call raises. *)
Definition magic_from_file (path : string) : M string := fun w =>
  match local_files w !! path with
  | Some st => (Ok (content_type st), w)
  | None => (Raise (Exn FileNotFoundError path), w)
  end.

(** [x in container] where the container may be None *)
Definition py_in (x : string) (container : option (list string)) : M bool :=
  match container with
  | Some l => mret (existsb (String.eqb x) l)
  | None => raise (Exn TypeError "argument of type 'NoneType' is not iterable")
  end.

(** [self.archive_filename(filename)], drawing from the generator *)
Definition archive_filename_draw (filename : string) : M string := fun w =>
  (Ok (archive_filename (fun i => entropy env (drawn w + i)) filename),
   set_drawn (drawn w + 5) w).

(** [RemoteFolderEventHandler.process_added].  The [print] is left out, and
    so is the opening and closing of the [SCPClient] channel, whose only
    use is the call to [scp.put] inside [put].  The step [race env] stands
    for what other processes do to the source directory between the
    classification and the copy; the second component of [put]'s result,
    which the source binds to [destination_dir], is [selection] here. *)
Definition process_added (self : Handler) (event : Event) : M unit :=
  _ ← connect self;
  filename ←
    match PyStr.last_item (PyStr.split "/" (src_path event)) with
    | Some seg => mret seg
    | None => raise (Exn IndexError "list index out of range")
    end;
  let path := PyStr.path_join (source_dir self) filename in
  mime_type ← magic_from_file path;
  listed ← py_in mime_type (mime_types self);
  if listed || bool_decide (mime_types self = None) then
    _ ← modify (fun w => set_files (race env (local_files w)) w);
    r ← put self filename mime_type;
    unpacked ←
      match r with
      | PutPair fileinfo selection => mret (fileinfo, selection)
      | PutNone => raise (Exn TypeError "cannot unpack non-iterable NoneType object")
      end;
    let fileinfo : option FileInfo := fst unpacked in
    let selection : pyval := snd unpacked in
    match fileinfo with
    | Some fileinfo =>
        match archive_dir self with
        | Some dir =>
            if negb (String.eqb dir "") then
              a ← archive_filename_draw filename;
              let fileinfo :=
                {| fi_path := fi_path fileinfo; fi_filename := fi_filename fileinfo;
                   fi_size := fi_size fileinfo; fi_timestamp := fi_timestamp fileinfo;
                   fi_archive_filename := Some a |} in
              _ ← update_history self fileinfo TX_SENT selection mime_type;
              os_rename path (PyStr.path_join dir a)
            else os_remove path
        | None => os_remove path
        end
    | None => mret tt
    end
  else mret tt.

(** [BaseEventHandler.process]: prints and does nothing else. *)
Definition process (self : Handler) (event : Event) : M unit := mret tt.

Definition on_created := process_added.
Definition on_modified := process_added.
Definition on_deleted := process.
Definition on_moved := process.

(** watchdog's [PatternMatchingEventHandler.dispatch]: directory events are
    dropped when [ignore_directories] is set, the event's paths are compared
    with the patterns by the library's matcher, and a matching event goes
    to the method of its type. *)
Definition dispatch (self : Handler) (event : Event) : M unit :=
  if ignore_directories self && is_directory event then mret tt
  else
    let paths :=
      match dest_path event with
      | Some d => [d; src_path event]
      | None => [src_path event]
      end in
    if existsb (fun path => existsb (path_match env path) (patterns self)) paths then
      match event_type event with
      | Created => on_created self event
      | Modified => on_modified self event
      | Deleted => on_deleted self event
      | Moved => on_moved self event
      end
    else mret tt.

End RemoteFolderEventHandler.

(** ** Vocabulary of the statements *)


(** [sel] is a path [d], or a list or tuple that starts with [d]. *)
Definition leads_to (sel : pyval) (d : string) : Prop :=
  sel = PStr d \/ exists rest, sel = PSeq (PStr d :: rest).

(** In a trace, some rename into the archive happens before some record is
    saved. *)
Definition rename_precedes_save (t : list effect) : Prop :=
  exists i j source destination row,
    t !! i = Some (Renamed source destination)
    /\ t !! j = Some (Saved row)
    /\ i < j.

(** A value that [a, b = v] can iterate over: a string, a list or a tuple. *)
Definition iterable (v : pyval) : bool :=
  match v with
  | PStr _ | PSeq _ => true
  | PNone | PInt _ => false
  end.

(** A run of a handler method, reduced to what the claims observe. *)
Definition rows_after {A} (r : outcome A * World) : list History := history_rows (snd r).
Definition trace_after {A} (r : outcome A * World) : list effect := trace (snd r).
Definition files_after {A} (r : outcome A * World) : gmap string FileStat :=
  local_files (snd r).

(** ** Scenarios

    Concrete handlers, collaborators and events on which the statements
    below are run. *)

Module Scenario.

Definition report : FileStat :=
  {| st_size := 120; st_mtime := 1000; content_type := "text/csv" |}.

Definition files : gmap string FileStat := {[ "/data/in/report.csv" := report ]}.

Definition world : World := init_world files 5000.

(** the instance of a subclass that has assigned [_remote_subfolders] *)
Definition world_subclass : World :=
  set_remote_subfolders {[ "/remote/in" := ∅ ]} world.

(** an instance whose [_destination_subdirs] has been filled from outside,
    for two base destinations *)
Definition world_cached : World :=
  set_destination_subdirs
    {[ "/remote/in" := {[ "pdf_folder" := "/remote/in/pdfs" ]};
       "/remote/out" := {[ "csv_folder" := "/remote/out/csvs" ]} ]}
    world.

(** a source directory holding a file whose name has no dot *)
Definition world_noext : World := init_world {[ "/data/in/noext" := report ]} 5000.

(** every collaborator succeeds, no routing strategy, no routing rules *)
Definition env_plain : Env :=
  {| gethostname := "lab1";
     ssh_connect := fun _ => None;
     scp_put := fun _ _ => None;
     select := None;
     remote_folder := None;
     remote_folder_rows := [];
     entropy := fun i => 7 * i + 30;
     race := fun f => f;
     rename_error := fun _ _ => None;
     local_timestamp := fun t => t;
     path_match := fnmatch |}.


(** a strategy that routes into a subfolder and returns a hint with it *)
Definition env_routed : Env :=
  {| gethostname := "lab1";
     ssh_connect := fun _ => None;
     scp_put := fun _ _ => None;
     select := Some (fun _ _ dest => Ok (PSeq [PStr (PyStr.path_join dest "csvs"); PStr "csv"]));
     remote_folder := None;
     remote_folder_rows := [];
     entropy := fun i => 7 * i + 30;
     race := fun f => f;
     rename_error := fun _ _ => None;
     local_timestamp := fun t => t;
     path_match := fnmatch |}.

(** the file is deleted by someone else once it has been classified *)
Definition env_vanish : Env :=
  {| gethostname := "lab1";
     ssh_connect := fun _ => None;
     scp_put := fun _ _ => None;
     select := None;
     remote_folder := None;
     remote_folder_rows := [];
     entropy := fun i => 7 * i + 30;
     race := fun f => delete "/data/in/report.csv" f;
     rename_error := fun _ _ => None;
     local_timestamp := fun t => t;
     path_match := fnmatch |}.

(** the transport finds a directory in its way *)
Definition env_directory : Env :=
  {| gethostname := "lab1";
     ssh_connect := fun _ => None;
     scp_put := fun _ _ => Some (Exn IsADirectoryError "Is a directory");
     select := None;
     remote_folder := None;
     remote_folder_rows := [];
     entropy := fun i => 7 * i + 30;
     race := fun f => f;
     rename_error := fun _ _ => None;
     local_timestamp := fun t => t;
     path_match := fnmatch |}.

(** a strategy that returns None *)
Definition env_none : Env :=
  {| gethostname := "lab1";
     ssh_connect := fun _ => None;
     scp_put := fun _ _ => None;
     select := Some (fun _ _ _ => Ok PNone);
     remote_folder := None;
     remote_folder_rows := [];
     entropy := fun i => 7 * i + 30;
     race := fun f => f;
     rename_error := fun _ _ => None;
     local_timestamp := fun t => t;
     path_match := fnmatch |}.

(** the transport breaks down *)
Definition env_broken : Env :=
  {| gethostname := "lab1";
     ssh_connect := fun _ => None;
     scp_put := fun _ _ => Some (Exn (OtherException "SCPException") "connection lost");
     select := None;
     remote_folder := None;
     remote_folder_rows := [];
     entropy := fun i => 7 * i + 30;
     race := fun f => f;
     rename_error := fun _ _ => None;
     local_timestamp := fun t => t;
     path_match := fnmatch |}.

(** the server refuses the key of the user *)
Definition env_refused : Env :=
  {| gethostname := "lab1";
     ssh_connect := fun _ => Some (Exn AuthenticationException "Authentication failed.");
     scp_put := fun _ _ => None;
     select := None;
     remote_folder := None;
     remote_folder_rows := [];
     entropy := fun i => 7 * i + 30;
     race := fun f => f;
     rename_error := fun _ _ => None;
     local_timestamp := fun t => t;
     path_match := fnmatch |}.

(** every collaborator succeeds, and watchdog compares the pattern with
    the final segment of the path *)
Definition env_by_name : Env :=
  {| gethostname := "lab1";
     ssh_connect := fun _ => None;
     scp_put := fun _ _ => None;
     select := None;
     remote_folder := None;
     remote_folder_rows := [];
     entropy := fun i => 7 * i + 30;
     race := fun f => f;
     rename_error := fun _ _ => None;
     local_timestamp := fun t => t;
     path_match := fnmatch_name |}.


(** the private key of the user is encrypted: paramiko raises
    PasswordRequiredException, a subclass of AuthenticationException *)
Definition env_password : Env :=
  {| gethostname := "lab1";
     ssh_connect :=
       fun _ => Some (Exn (Subclass "PasswordRequiredException" AuthenticationException)
                        "Private key file is encrypted");
     scp_put := fun _ _ => None;
     select := None;
     remote_folder := None;
     remote_folder_rows := [];
     entropy := fun i => 7 * i + 30;
     race := fun f => f;
     rename_error := fun _ _ => None;
     local_timestamp := fun t => t;
     path_match := fnmatch |}.

(** the key of the server is not the known one *)
Definition env_bad_host_key : Env :=
  {| gethostname := "lab1";
     ssh_connect :=
       fun _ => Some (Exn BadHostKeyException
                        "Host key for server edc.example.org does not match!");
     scp_put := fun _ _ => None;
     select := None;
     remote_folder := None;
     remote_folder_rows := [];
     entropy := fun i => 7 * i + 30;
     race := fun f => f;
     rename_error := fun _ _ => None;
     local_timestamp := fun t => t;
     path_match := fnmatch |}.

(** the archive directory does not exist *)
Definition env_no_archive_dir : Env :=
  {| gethostname := "lab1";
     ssh_connect := fun _ => None;
     scp_put := fun _ _ => None;
     select := None;
     remote_folder := None;
     remote_folder_rows := [];
     entropy := fun i => 7 * i + 30;
     race := fun f => f;
     rename_error :=
       fun _ _ => Some (Exn FileNotFoundError "No such file or directory");
     local_timestamp := fun t => t;
     path_match := fnmatch |}.


(** one routing rule for the base destination, and a [remote_folder]
    method as a subclass could supply it *)
Definition env_rules : Env :=
  {| gethostname := "lab1";
     ssh_connect := fun _ => None;
     scp_put := fun _ _ => None;
     select := None;
     remote_folder := Some PyStr.path_join;
     remote_folder_rows :=
       [ {| base_path := "/remote/in"; folder := "pdfs";
            name := "pdf_folder"; file_hint := "pdf" |} ];
     entropy := fun i => 7 * i + 30;
     race := fun f => f;
     rename_error := fun _ _ => None;
     local_timestamp := fun t => t;
     path_match := fnmatch |}.

Definition TX_SENT : string := "sent".

(** allow-set {text/csv}, no archive directory *)
Definition handler_delete : Handler :=
  RemoteFolderEventHandler_init (Some "edc.example.org") "erik"
    "/data/in" "/remote/in" None (Some ["text/csv"]).

(** allow-set {text/csv}, archive directory set *)
Definition handler_archive : Handler :=
  RemoteFolderEventHandler_init (Some "edc.example.org") "erik"
    "/data/in" "/remote/in" (Some "/data/archive") (Some ["text/csv"]).

(** no allow-set *)
Definition handler_accept_all : Handler :=
  RemoteFolderEventHandler_init (Some "edc.example.org") "erik"
    "/data/in" "/remote/in" (Some "/data/archive") None.

(** allow-set {application/pdf} *)
Definition handler_pdf_only : Handler :=
  RemoteFolderEventHandler_init (Some "edc.example.org") "erik"
    "/data/in" "/remote/in" None (Some ["application/pdf"]).

(** the remote folder is the relative path "in" *)
Definition handler_short : Handler :=
  RemoteFolderEventHandler_init (Some "edc.example.org") "erik"
    "/data/in" "in" (Some "/data/archive") (Some ["text/csv"]).

(** the archive directory is the source directory itself *)
Definition handler_in_place : Handler :=
  RemoteFolderEventHandler_init (Some "edc.example.org") "erik"
    "/data/in" "/remote/in" (Some "/data/in") (Some ["text/csv"]).

Definition created (path : string) : Event :=
  {| event_type := Created; src_path := path; dest_path := None; is_directory := false |}.

Definition fileinfo : FileInfo :=
  {| fi_path := "/data/in"; fi_filename := "report.csv"; fi_size := 120;
     fi_timestamp := 1000; fi_archive_filename := Some "report_4BIPW.csv" |}.

(** the descriptor as [statinfo] builds it, before an archive name is set *)
Definition fileinfo_plain : FileInfo :=
  {| fi_path := "/data/in"; fi_filename := "report.csv"; fi_size := 120;
     fi_timestamp := 1000; fi_archive_filename := None |}.

End Scenario.

(** * Properties *)

(** ** Strings *)

Module PyStrFacts.
Import PyStr.

Lemma app_assoc (a b c : string) : (a +:+ b) +:+ c = a +:+ (b +:+ c).
Proof. induction a as [|x a IH]; simpl; [reflexivity | now rewrite IH]. Qed.

Lemma app_length (a b : string) :
  String.length (a +:+ b) = String.length a + String.length b.
Proof. induction a as [|x a IH]; simpl; [reflexivity | now rewrite IH]. Qed.

Lemma count_app c (a b : string) : count c (a +:+ b) = count c a + count c b.
Proof. induction a as [|x a IH]; simpl; [reflexivity | rewrite IH; lia]. Qed.

Lemma split_not_nil c s : split c s <> [].
Proof.
  destruct s as [|a s]; simpl; [discriminate|].
  destruct (Ascii.eqb a c); [discriminate|].
  destruct (split c s); discriminate.
Qed.

(** one field more than there are separators *)
Lemma split_length c s : length (split c s) = S (count c s).
Proof.
  induction s as [|a s IH]; simpl; [reflexivity|].
  destruct (Ascii.eqb a c); simpl; [now rewrite IH|].
  destruct (split c s) eqn:E; simpl in *; [discriminate | exact IH].
Qed.

Lemma split_no_sep c s : count c s = 0 -> split c s = [s].
Proof.
  induction s as [|a s IH]; simpl; [reflexivity|].
  destruct (Ascii.eqb a c); [discriminate|].
  intros H. now rewrite IH.
Qed.

Lemma split_app_sep c f rest :
  count c f = 0 -> split c (f +:+ String c rest) = f :: split c rest.
Proof.
  induction f as [|a f IH]; simpl.
  - intros _. now rewrite Ascii.eqb_refl.
  - destruct (Ascii.eqb a c); [discriminate|].
    intros H. now rewrite IH.
Qed.

(** a name with exactly one separator splits into its two sides *)
Lemma split_one_sep c f ext :
  count c f = 0 -> count c ext = 0 -> split c (f +:+ String c ext) = [f; ext].
Proof. intros Hf He. now rewrite split_app_sep, (split_no_sep c ext). Qed.

Lemma strip_prefix_app p r : strip_prefix p (p +:+ r) = Some r.
Proof.
  induction p as [|a p IH]; simpl; [reflexivity|].
  now rewrite Ascii.eqb_refl.
Qed.

Lemma strip_class_app cls suffix r :
  all_chars cls suffix = true ->
  strip_class cls (String.length suffix) (suffix +:+ r) = Some r.
Proof.
  unfold all_chars.
  induction suffix as [|a s IH]; simpl; [reflexivity|].
  intros H. apply andb_prop in H as [Ha Hs]. rewrite Ha. now apply IH.
Qed.

Lemma last_item_cons {A} (x y : A) l : last_item (x :: y :: l) = last_item (y :: l).
Proof. unfold last_item. simpl. now rewrite !Nat.sub_0_r. Qed.

Lemma last_item_is_Some {A} (l : list A) : l <> [] -> is_Some (last_item l).
Proof.
  induction l as [|x [|y l] IH]; intros H; [congruence | now eexists |].
  rewrite last_item_cons. apply IH. discriminate.
Qed.

(** the last field of a split has no more occurrences of a character than
    the whole string *)
Lemma count_last_segment sep c s seg :
  last_item (split sep s) = Some seg -> count c seg <= count c s.
Proof.
  revert seg. induction s as [|a s IH]; simpl; intros seg.
  - unfold last_item. simpl. intros [= <-]. simpl. lia.
  - destruct (Ascii.eqb a sep).
    + pose proof (split_not_nil sep s) as Hne.
      destruct (split sep s) as [|w ws] eqn:E; [congruence|].
      rewrite last_item_cons. intros H. apply IH in H. lia.
    + destruct (split sep s) as [|w ws] eqn:E.
      * now destruct (split_not_nil sep s).
      * destruct ws as [|w' ws].
        -- unfold last_item. simpl. intros [= <-].
           specialize (IH w eq_refl). simpl. lia.
        -- rewrite last_item_cons. intros H.
           rewrite <- (last_item_cons w) in H. apply IH in H. lia.
Qed.

End PyStrFacts.

(** ** Archive names (C6) *)

Lemma choice_alphabet r :
  exists a, choice r (PyStr.ascii_uppercase +:+ PyStr.digits) = String a EmptyString
            /\ PyStr.is_upper_or_digit a = true.
Proof.
  unfold choice.
  assert (H : r mod 36 < 36) by (apply Nat.mod_upper_bound; lia).
  change (String.length (PyStr.ascii_uppercase +:+ PyStr.digits)) with 36.
  remember (r mod 36) as k eqn:Ek. clear Ek.
  do 36 (destruct k as [|k]; [eexists; split; reflexivity|]).
  lia.
Qed.

Lemma random_suffix_shape rand :
  String.length (random_suffix rand) = 5
  /\ PyStr.all_chars PyStr.is_upper_or_digit (random_suffix rand) = true.
Proof.
  unfold random_suffix. cbn [seq map].
  destruct (choice_alphabet (rand 0)) as (a0 & -> & H0).
  destruct (choice_alphabet (rand 1)) as (a1 & -> & H1).
  destruct (choice_alphabet (rand 2)) as (a2 & -> & H2).
  destruct (choice_alphabet (rand 3)) as (a3 & -> & H3).
  destruct (choice_alphabet (rand 4)) as (a4 & -> & H4).
  unfold PyStr.all_chars. simpl. now rewrite H0, H1, H2, H3, H4.
Qed.

Lemma archive_pattern_intro stem ext suffix :
  String.length suffix = 5 ->
  PyStr.all_chars PyStr.is_upper_or_digit suffix = true ->
  matches_archive_pattern stem ext ((stem +:+ "_" +:+ suffix) +:+ "." +:+ ext) = true.
Proof.
  intros Hlen Hcls. unfold matches_archive_pattern.
  replace ((stem +:+ "_" +:+ suffix) +:+ "." +:+ ext)
    with ((stem +:+ "_") +:+ suffix +:+ "." +:+ ext)
    by now rewrite !PyStrFacts.app_assoc.
  rewrite PyStrFacts.strip_prefix_app, <- Hlen, PyStrFacts.strip_class_app by assumption.
  apply String.eqb_refl.
Qed.

Lemma archive_filename_with_ext rand f ext :
  PyStr.count "." f = 0 -> PyStr.count "." ext = 0 ->
  archive_filename rand (f +:+ "." +:+ ext)
  = (f +:+ "_" +:+ random_suffix rand) +:+ "." +:+ ext.
Proof.
  intros Hf He. unfold archive_filename.
  change (f +:+ "." +:+ ext) with (f +:+ String "." ext).
  now rewrite PyStrFacts.split_one_sep.
Qed.

Lemma archive_filename_without_ext rand filename :
  PyStr.count "." filename <> 1 ->
  archive_filename rand filename
  = (filename +:+ "_" +:+ random_suffix rand) +:+ "." +:+ "".
Proof.
  intros H. unfold archive_filename.
  pose proof (PyStrFacts.split_length "." filename) as L.
  destruct (PyStr.split "." filename) as [|a [|b [|c l]]]; simpl in *;
    try reflexivity.
  lia.
Qed.

(** C6. For every filename, [archive_filename] inserts a suffix of five
    characters, each an uppercase letter or a digit, before the extension:
    a name [f.ext] with exactly one dot becomes [f_SUFFIX.ext], so
    "sample.pdf" matches [sample_[A-Z0-9]{5}\.pdf]; a name whose number of
    dots is not one is taken whole as the stem and gets an empty extension
    segment, so "noext" matches [noext_[A-Z0-9]{5}\.]. *)
Theorem archive_filename_suffix_before_extension (rand : nat -> nat) (filename : string) :
  exists suffix,
    String.length suffix = 5
    /\ PyStr.all_chars PyStr.is_upper_or_digit suffix = true
    /\ (forall f ext,
          filename = f +:+ "." +:+ ext ->
          PyStr.count "." f = 0 -> PyStr.count "." ext = 0 ->
          archive_filename rand filename = (f +:+ "_" +:+ suffix) +:+ "." +:+ ext
          /\ matches_archive_pattern f ext (archive_filename rand filename) = true)
    /\ (PyStr.count "." filename <> 1 ->
          archive_filename rand filename = (filename +:+ "_" +:+ suffix) +:+ "."
          /\ matches_archive_pattern filename "" (archive_filename rand filename) = true)
    /\ archive_filename rand "sample.pdf" = "sample_" +:+ suffix +:+ ".pdf"
    /\ matches_archive_pattern "sample" "pdf" (archive_filename rand "sample.pdf") = true
    /\ archive_filename rand "noext" = "noext_" +:+ suffix +:+ "."
    /\ matches_archive_pattern "noext" "" (archive_filename rand "noext") = true.
Proof.
  destruct (random_suffix_shape rand) as [Hlen Hcls].
  exists (random_suffix rand). repeat split; try assumption.
  - subst filename. now apply archive_filename_with_ext.
  - subst filename. rewrite archive_filename_with_ext by assumption.
    now apply archive_pattern_intro.
  - now apply archive_filename_without_ext.
  - rewrite archive_filename_without_ext by assumption.
    now apply archive_pattern_intro.
  - change "sample.pdf" with ("sample" +:+ "." +:+ "pdf").
    rewrite archive_filename_with_ext by reflexivity.
    now apply (archive_pattern_intro "sample" "pdf").
  - rewrite archive_filename_without_ext by (simpl; lia).
    now apply (archive_pattern_intro "noext" "").
Qed.

(** The theorem at "report.csv" (one dot) and at "a.tar.gz" (two dots). *)
Lemma archive_filename_suffix_before_extension_witness :
  exists suffix,
    archive_filename (fun i => 7 * i + 30) "report.csv"
    = ("report" +:+ "_" +:+ suffix) +:+ "." +:+ "csv"
    /\ matches_archive_pattern "report" "csv"
         (archive_filename (fun i => 7 * i + 30) "report.csv") = true.
Proof.
  destruct (archive_filename_suffix_before_extension (fun i => 7 * i + 30) "report.csv")
    as (suffix & _ & _ & Hext & _).
  exists suffix. apply (Hext "report" "csv"); reflexivity.
Defined.

(** ** Destination routing (C5) *)

#[local] Arguments is_class : simpl never.

Lemma select_destination_dir_world env self filename mime_type w :
  snd (select_destination_dir env self filename mime_type w) = w.
Proof.
  unfold select_destination_dir, try_except, lift, raise.
  destruct (select env) as [f|]; simpl.
  - destruct (f filename mime_type (destination_dir self)) as [v|e]; simpl;
      [reflexivity|].
    destruct (is_class TypeError e); [|reflexivity].
    now destruct (PyStr.contains _ _).
  - reflexivity.
Qed.




(** ** The pattern filter (C8) *)

Lemma fnmatch_star s : fnmatch_chars ["*"%char] s = true.
Proof. induction s as [|a s IH]; [reflexivity | exact IH]. Qed.

(** the pattern [*.*] accepts exactly the paths that contain a dot *)
Lemma fnmatch_star_dot_star path :
  fnmatch path "*.*" = negb (Nat.eqb (PyStr.count "." path) 0).
Proof.
  unfold fnmatch.
  change (list_ascii_of_string "*.*") with ["*"%char; "."%char; "*"%char].
  induction path as [|a s IH].
  - reflexivity.
  - change (list_ascii_of_string (String a s)) with (a :: list_ascii_of_string s).
    change (fnmatch_chars ["*"%char; "."%char; "*"%char] (a :: list_ascii_of_string s))
      with ((Ascii.eqb a "." && fnmatch_chars ["*"%char] (list_ascii_of_string s))
            || fnmatch_chars ["*"%char; "."%char; "*"%char] (list_ascii_of_string s)).
    rewrite IH, fnmatch_star. simpl PyStr.count.
    destruct (Ascii.eqb a "."); simpl; [reflexivity|].
    reflexivity.
Qed.

Lemma fnmatch_name_star_dot_star path name :
  PyStr.last_item (PyStr.split "/" path) = Some name ->
  fnmatch_name path "*.*" = negb (Nat.eqb (PyStr.count "." name) 0).
Proof. intros H. unfold fnmatch_name. rewrite H. apply fnmatch_star_dot_star. Qed.

(** under either way of matching, a name with a dot is accepted *)
Lemma glob_accepts_dotted_name path name :
  PyStr.last_item (PyStr.split "/" path) = Some name ->
  PyStr.count "." name <> 0 ->
  fnmatch path "*.*" = true /\ fnmatch_name path "*.*" = true.
Proof.
  intros Hlast Hname.
  rewrite fnmatch_star_dot_star, (fnmatch_name_star_dot_star path name Hlast).
  pose proof (PyStrFacts.count_last_segment "/" "." _ _ Hlast).
  destruct (PyStr.count "." name); [congruence|].
  destruct (PyStr.count "." path); [lia|]. split; reflexivity.
Qed.

(** under either way of matching, a path without a dot is refused *)
Lemma glob_refuses_dotless_path path :
  PyStr.count "." path = 0 ->
  fnmatch path "*.*" = false /\ fnmatch_name path "*.*" = false.
Proof.
  intros Hpath. rewrite fnmatch_star_dot_star, Hpath. split; [reflexivity|].
  unfold fnmatch_name.
  destruct (PyStr.last_item (PyStr.split "/" path)) as [name|] eqn:Hlast;
    [|reflexivity].
  rewrite fnmatch_star_dot_star.
  pose proof (PyStrFacts.count_last_segment "/" "." _ _ Hlast).
  destruct (PyStr.count "." name); [reflexivity | lia].
Qed.

Lemma default_patterns_match env hostname os_user sd dd ad mt path :
  existsb (path_match env path)
    (patterns (RemoteFolderEventHandler_init hostname os_user sd dd ad mt))
  = path_match env path "*.*".
Proof. simpl. apply orb_false_r. Qed.

(** C8, as the code has it.  The handler is built with the single pattern
    [*.*] and with directories ignored.  A directory event is never
    dispatched; a create or modify notification for a file goes to
    [process_added] when the library's matcher accepts its path for
    [*.*], and is dropped when it does not.  Whether the matcher applies
    the glob to the whole path or to its final segment, a file whose name
    contains a dot is dispatched, and a path without any dot is dropped. *)
Theorem default_patterns_dispatch
    (env : Env) (tx_sent : string) (hostname : option string) (os_user sd dd : string)
    (ad : option string) (mt : option (list string)) (ev : Event) (w : World) :
  let self := RemoteFolderEventHandler_init hostname os_user sd dd ad mt in
  (is_directory ev = true -> dispatch env tx_sent self ev w = (Ok tt, w))
  /\ (is_directory ev = false ->
      path_match env (src_path ev) "*.*" = true ->
      event_type ev = Created \/ event_type ev = Modified ->
      dispatch env tx_sent self ev w = process_added env tx_sent self ev w)
  /\ (dest_path ev = None ->
      path_match env (src_path ev) "*.*" = false ->
      dispatch env tx_sent self ev w = (Ok tt, w))
  /\ (forall filename,
        path_match env = fnmatch \/ path_match env = fnmatch_name ->
        is_directory ev = false ->
        PyStr.last_item (PyStr.split "/" (src_path ev)) = Some filename ->
        PyStr.count "." filename <> 0 ->
        event_type ev = Created \/ event_type ev = Modified ->
        dispatch env tx_sent self ev w = process_added env tx_sent self ev w)
  /\ (path_match env = fnmatch \/ path_match env = fnmatch_name ->
      dest_path ev = None ->
      PyStr.count "." (src_path ev) = 0 ->
      dispatch env tx_sent self ev w = (Ok tt, w)).
Proof.
  intros self.
  assert (Hyes : is_directory ev = false ->
                 path_match env (src_path ev) "*.*" = true ->
                 event_type ev = Created \/ event_type ev = Modified ->
                 dispatch env tx_sent self ev w = process_added env tx_sent self ev w).
  { intros Hdir Hmatch Hkind. unfold dispatch. rewrite Hdir, andb_false_r.
    assert (Hsrc : existsb (path_match env (src_path ev)) (patterns self) = true).
    { unfold self. now rewrite default_patterns_match. }
    assert (Hany : existsb (fun path => existsb (path_match env path) (patterns self))
                     match dest_path ev with
                     | Some d => [d; src_path ev]
                     | None => [src_path ev]
                     end = true).
    { destruct (dest_path ev); cbn [existsb]; rewrite Hsrc;
        now rewrite ?orb_true_r. }
    rewrite Hany. now destruct Hkind as [-> | ->]. }
  assert (Hno : dest_path ev = None ->
                path_match env (src_path ev) "*.*" = false ->
                dispatch env tx_sent self ev w = (Ok tt, w)).
  { intros Hdest Hmatch. unfold dispatch.
    destruct (ignore_directories self && is_directory ev); [reflexivity|].
    rewrite Hdest. cbn [existsb]. unfold self.
    now rewrite default_patterns_match, Hmatch. }
  repeat split.
  - intros Hdir. unfold dispatch. now rewrite Hdir.
  - exact Hyes.
  - exact Hno.
  - intros filename Hmode Hdir Hlast Hcount Hkind. apply Hyes; try assumption.
    destruct (glob_accepts_dotted_name _ _ Hlast Hcount) as [H1 H2].
    now destruct Hmode as [-> | ->].
  - intros Hmode Hdest Hcount. apply Hno; [assumption|].
    destruct (glob_refuses_dotless_path _ Hcount) as [H1 H2].
    now destruct Hmode as [-> | ->].
Qed.

(** The theorem at an event for "/data/in/report.csv", with the glob
    applied to the whole path and with the glob applied to the name. *)
Lemma default_patterns_dispatch_witness :
  dispatch Scenario.env_plain Scenario.TX_SENT Scenario.handler_delete
    (Scenario.created "/data/in/report.csv") Scenario.world
  = process_added Scenario.env_plain Scenario.TX_SENT Scenario.handler_delete
      (Scenario.created "/data/in/report.csv") Scenario.world
  /\ dispatch Scenario.env_by_name Scenario.TX_SENT Scenario.handler_delete
       (Scenario.created "/data/in/report.csv") Scenario.world
     = process_added Scenario.env_by_name Scenario.TX_SENT Scenario.handler_delete
         (Scenario.created "/data/in/report.csv") Scenario.world.
Proof.
  split.
  - apply (default_patterns_dispatch Scenario.env_plain Scenario.TX_SENT
             (Some "edc.example.org") "erik" "/data/in" "/remote/in" None
             (Some ["text/csv"]) (Scenario.created "/data/in/report.csv")
             Scenario.world).
    + reflexivity.
    + reflexivity.
    + left. reflexivity.
  - destruct (default_patterns_dispatch Scenario.env_by_name Scenario.TX_SENT
                (Some "edc.example.org") "erik" "/data/in" "/remote/in" None
                (Some ["text/csv"]) (Scenario.created "/data/in/report.csv")
                Scenario.world) as (_ & _ & _ & Hname & _).
    apply (Hname "report.csv").
    + right. reflexivity.
    + reflexivity.
    + reflexivity.
    + simpl. lia.
    + left. reflexivity.
Defined.

(** C8 as stated fails: a file named "noext" is created in the watched
    directory; its path matches none of the default patterns, so [dispatch]
    does nothing, although [process_added] would have relayed the file.
    The same happens when the pattern is compared with the name only. *)
Lemma default_patterns_drop_dotless_name :
  let ev := Scenario.created "/data/in/noext" in
  is_directory ev = false
  /\ existsb (fnmatch (src_path ev)) (patterns Scenario.handler_delete) = false
  /\ trace_after (process_added Scenario.env_plain Scenario.TX_SENT
                    Scenario.handler_delete ev Scenario.world_noext)
     = [Connected "edc.example.org";
        Copied "/data/in/noext" "/remote/in/noext";
        Removed "/data/in/noext"]
  /\ trace_after (dispatch Scenario.env_plain Scenario.TX_SENT
                    Scenario.handler_delete ev Scenario.world_noext)
     = []
  /\ existsb (fnmatch_name (src_path ev)) (patterns Scenario.handler_delete) = false
  /\ trace_after (dispatch Scenario.env_by_name Scenario.TX_SENT
                    Scenario.handler_delete ev Scenario.world_noext)
     = [].
Proof. repeat split; vm_compute; reflexivity. Qed.

(** ** The audit record (C9, C10) *)

Ltac run_M :=
  unfold mbind, M_bind, mret, M_ret, try_except, lift, raise, get_world,
    put_world, modify, save in *.

(** What [update_history] leaves behind when it returns: exactly one new
    row, saved last, whose fields are read off the handler, the fileinfo
    and the unpacked selection. *)
Lemma update_history_returns env self fi status sel mime_type w w' :
  update_history env self fi status sel mime_type w = (Ok tt, w') ->
  exists row,
    w' = log (Saved row) (set_rows (history_rows w ++ [row]) w)
    /\ h_remote_path row = destination_dir self
    /\ h_filename row = fi_filename fi
    /\ h_status row = status
    /\ h_mime_type row = mime_type
    /\ h_archive_name row
       = (if truthy (archive_dir self)
          then option_map (String.append "archive/") (fi_archive_filename fi)
          else None)
    /\ h_remote_folder_hint row
       = match unpack2 sel with
         | Ok (_, hint) => hint
         | Raise _ => PNone
         end
    /\ h_remote_folder row
       = match (match unpack2 sel with Ok (d, _) => d | Raise _ => sel end) with
         | PStr d => default "default" (PyStr.last_item (PyStr.split "/" d))
         | _ => "default"
         end.
Proof.
  unfold update_history. run_M.
  destruct (unpack2 sel) as [[d hint]|e]; cbn [fst snd].
  - destruct d as [|d|z|items]; cbn [is_class];
      try (destruct (truthy (archive_dir self));
           [destruct (fi_archive_filename fi)|];
           intros [= <-]; eexists; repeat split; reflexivity).
    destruct (PyStr.last_item (PyStr.split "/" d)) eqn:E;
      [|change (is_class AttributeError (Exn IndexError "list index out of range"))
          with false; discriminate].
    destruct (truthy (archive_dir self));
      [destruct (fi_archive_filename fi)|];
      intros [= <-]; eexists; repeat split; reflexivity.
  - destruct (is_class ValueError e); [|discriminate]. cbn [fst snd].
    destruct sel as [|d|z|items];
      try (change (is_class AttributeError
                     (Exn AttributeError "object has no attribute 'split'"))
             with true;
           destruct (truthy (archive_dir self));
           [destruct (fi_archive_filename fi)|];
           intros [= <-]; eexists; repeat split; reflexivity).
    destruct (PyStr.last_item (PyStr.split "/" d)) eqn:E;
      [|change (is_class AttributeError (Exn IndexError "list index out of range"))
          with false; discriminate].
    destruct (truthy (archive_dir self));
      [destruct (fi_archive_filename fi)|];
      intros [= <-]; eexists; repeat split; reflexivity.
Qed.

(** When [update_history] raises, nothing has been saved. *)
Lemma update_history_raises env self fi status sel mime_type w e w' :
  update_history env self fi status sel mime_type w = (Raise e, w') -> w' = w.
Proof.
  unfold update_history. run_M.
  destruct (unpack2 sel) as [[d hint]|e0]; cbn [fst snd].
  - destruct d as [|d|z|items];
      try (change (is_class AttributeError
                     (Exn AttributeError "object has no attribute 'split'"))
             with true);
      try (destruct (PyStr.last_item (PyStr.split "/" d));
           [|change (is_class AttributeError
                       (Exn IndexError "list index out of range")) with false]);
      try (destruct (truthy (archive_dir self));
           [destruct (fi_archive_filename fi)|]);
      intros [= _ <-]; reflexivity.
  - destruct (is_class ValueError e0); [|intros [= _ <-]; reflexivity].
    cbn [fst snd].
    destruct sel as [|d|z|items];
      try (change (is_class AttributeError
                     (Exn AttributeError "object has no attribute 'split'"))
             with true);
      try (destruct (PyStr.last_item (PyStr.split "/" d));
           [|change (is_class AttributeError
                       (Exn IndexError "list index out of range")) with false]);
      try (destruct (truthy (archive_dir self));
           [destruct (fi_archive_filename fi)|]);
      intros [= _ <-]; reflexivity.
Qed.

Lemma update_history_pair env self fi status d hint mime_type w :
  (truthy (archive_dir self) = true -> is_Some (fi_archive_filename fi)) ->
  exists w', update_history env self fi status (PSeq [PStr d; hint]) mime_type w
             = (Ok tt, w').
Proof.
  intros Harch. unfold update_history. run_M. cbn [unpack2 fst snd].
  destruct (PyStrFacts.last_item_is_Some _ (PyStrFacts.split_not_nil "/" d))
    as [seg ->].
  destruct (truthy (archive_dir self)); [|eauto].
  destruct (Harch eq_refl) as [a ->]. eauto.
Qed.

(** C10. Every row that [update_history] saves has [remote_path] equal to
    the handler's configured [destination_dir].  When the routing strategy
    returned the pair of a folder [d] and a hint, the saved row carries the
    last segment of [d] as [remote_folder] and the hint as
    [remote_folder_hint], and [remote_path] is still the configured
    directory, whatever [d] is. *)
Theorem update_history_remote_path
    (env : Env) (self : Handler) (fi : FileInfo) (status : string)
    (sel : pyval) (mime_type : string) (w : World) :
  (forall row,
     In row (rows_after (update_history env self fi status sel mime_type w)) ->
     In row (history_rows w) \/ h_remote_path row = destination_dir self)
  /\ (forall d hint,
        sel = PSeq [PStr d; hint] ->
        (truthy (archive_dir self) = true -> is_Some (fi_archive_filename fi)) ->
        exists row,
          rows_after (update_history env self fi status sel mime_type w)
          = (history_rows w ++ [row])%list
          /\ h_remote_path row = destination_dir self
          /\ PyStr.last_item (PyStr.split "/" d) = Some (h_remote_folder row)
          /\ h_remote_folder_hint row = hint).
Proof.
  split.
  - intros row. unfold rows_after.
    destruct (update_history env self fi status sel mime_type w) as [[[]|e] w'] eqn:E.
    + apply update_history_returns in E as (row' & -> & Hpath & _).
      cbn. rewrite in_app_iff. intros [H | [<- | []]]; auto.
    + apply update_history_raises in E as ->. auto.
  - intros d hint -> Harch.
    destruct (update_history_pair env self fi status d hint mime_type w Harch)
      as [w' E].
    unfold rows_after. rewrite E.
    apply update_history_returns in E
      as (row & -> & Hpath & _ & _ & _ & _ & Hhint & Hfolder).
    exists row. cbn in *. repeat split; try assumption.
    rewrite Hfolder.
    destruct (PyStrFacts.last_item_is_Some _ (PyStrFacts.split_not_nil "/" d))
      as [seg ->].
    reflexivity.
Qed.

(** The theorem at a selection routed into "/remote/in/csvs" with the hint
    "csv": [remote_path] stays "/remote/in". *)
Lemma update_history_remote_path_witness :
  exists row,
    rows_after (update_history Scenario.env_routed Scenario.handler_archive
                  Scenario.fileinfo Scenario.TX_SENT
                  (PSeq [PStr "/remote/in/csvs"; PStr "csv"]) "text/csv" Scenario.world)
    = (history_rows Scenario.world ++ [row])%list
    /\ h_remote_path row = "/remote/in"
    /\ PyStr.last_item (PyStr.split "/" "/remote/in/csvs") = Some (h_remote_folder row)
    /\ h_remote_folder_hint row = PStr "csv".
Proof.
  apply (update_history_remote_path Scenario.env_routed Scenario.handler_archive
           Scenario.fileinfo Scenario.TX_SENT
           (PSeq [PStr "/remote/in/csvs"; PStr "csv"]) "text/csv" Scenario.world).
  - reflexivity.
  - intros _. eexists. reflexivity.
Defined.

(** A bare path of any length other than two is not unpacked, and the
    recorded hint is None. *)
Lemma unpack2_long_path d :
  String.length d <> 2 ->
  exists e, unpack2 (PStr d) = Raise e /\ is_class ValueError e = true.
Proof.
  intros H. unfold unpack2.
  destruct d as [|a [|b [|c d]]]; simpl in *; try (eexists; split; reflexivity).
  lia.
Qed.

(** C9 fails on the code: the bare destination path "in", two characters
    long, is unpacked into its characters, so the row records the hint "n"
    and the folder "i" instead of no hint and the folder "in"; the same
    happens end to end for a handler whose [destination_dir] is "in". *)
Lemma update_history_two_character_path :
  unpack2 (PStr "in") = Ok (PStr "i", PStr "n")
  /\ map h_remote_folder_hint
       (rows_after (update_history Scenario.env_plain Scenario.handler_delete
                      Scenario.fileinfo Scenario.TX_SENT (PStr "in") "text/csv"
                      Scenario.world))
     = [PStr "n"]
  /\ map h_remote_folder
       (rows_after (update_history Scenario.env_plain Scenario.handler_delete
                      Scenario.fileinfo Scenario.TX_SENT (PStr "in") "text/csv"
                      Scenario.world))
     = ["i"]
  /\ map (fun row => (h_remote_path row, h_remote_folder row, h_remote_folder_hint row))
       (rows_after (process_added Scenario.env_plain Scenario.TX_SENT
                      Scenario.handler_short
                      (Scenario.created "/data/in/report.csv") Scenario.world))
     = [("in", "i", PStr "n")].
Proof. repeat split; vm_compute; reflexivity. Qed.

(** ** The copy step *)

(** The routing decision does not read or change the world. *)
Lemma select_destination_dir_any_world env self filename mime_type w w0 :
  select_destination_dir env self filename mime_type w
  = (fst (select_destination_dir env self filename mime_type w0), w).
Proof.
  unfold select_destination_dir, try_except, lift, raise.
  destruct (select env) as [f|]; simpl.
  - destruct (f filename mime_type (destination_dir self)) as [v|e]; simpl;
      [reflexivity|].
    destruct (is_class TypeError e); [|reflexivity].
    now destruct (PyStr.contains _ _).
  - reflexivity.
Qed.

(** The source is still an ordinary file and the transport accepts it: the
    file is copied and its descriptor returned with the selection. *)
Lemma put_copies env self filename mime_type w sel d st :
  fst (select_destination_dir env self filename mime_type w) = Ok sel ->
  leads_to sel d ->
  local_files w !! PyStr.path_join (source_dir self) filename = Some st ->
  scp_put env (PyStr.path_join (source_dir self) filename) (PyStr.path_join d filename)
  = None ->
  put env self filename mime_type w
  = (Ok (PutPair
           (Some {| fi_path := source_dir self; fi_filename := filename;
                    fi_size := st_size st;
                    fi_timestamp := local_timestamp env (st_mtime st);
                    fi_archive_filename := None |})
           sel),
     log (Copied (PyStr.path_join (source_dir self) filename)
                 (PyStr.path_join d filename)) w).
Proof.
  intros Hsel Hd Hfile Hput. unfold put, statinfo. run_M.
  rewrite (select_destination_dir_any_world env self filename mime_type w w), Hsel.
  destruct Hd as [-> | [rest ->]]; rewrite Hfile; cbn; rewrite Hfile, Hput;
    reflexivity.
Qed.

(** The source no longer names an ordinary file: [put] returns None, not a
    pair, and touches nothing. *)
Lemma put_vanished env self filename mime_type w sel d :
  fst (select_destination_dir env self filename mime_type w) = Ok sel ->
  leads_to sel d ->
  local_files w !! PyStr.path_join (source_dir self) filename = None ->
  put env self filename mime_type w = (Ok PutNone, w).
Proof.
  intros Hsel Hd Hfile. unfold put. run_M.
  rewrite (select_destination_dir_any_world env self filename mime_type w w), Hsel.
  destruct Hd as [-> | [rest ->]]; rewrite Hfile; reflexivity.
Qed.

(** The transport reports a directory: the descriptor is None, inside a
    pair. *)
Lemma put_is_a_directory env self filename mime_type w sel d st e :
  fst (select_destination_dir env self filename mime_type w) = Ok sel ->
  leads_to sel d ->
  local_files w !! PyStr.path_join (source_dir self) filename = Some st ->
  scp_put env (PyStr.path_join (source_dir self) filename) (PyStr.path_join d filename)
  = Some e ->
  is_class IsADirectoryError e = true ->
  put env self filename mime_type w = (Ok (PutPair None sel), w).
Proof.
  intros Hsel Hd Hfile Hput He. unfold put, statinfo. run_M.
  rewrite (select_destination_dir_any_world env self filename mime_type w w), Hsel.
  destruct Hd as [-> | [rest ->]]; rewrite Hfile; cbn; rewrite Hfile, Hput, He;
    reflexivity.
Qed.

(** [update_history] returns for every selection that is a string, a list
    or a tuple, provided the archive name is there when it is needed. *)
Lemma update_history_total env self fi status sel d mime_type w :
  leads_to sel d ->
  (truthy (archive_dir self) = true -> is_Some (fi_archive_filename fi)) ->
  exists w', update_history env self fi status sel mime_type w = (Ok tt, w').
Proof.
  intros Hd Harch. unfold update_history. run_M.
  assert (Hseg : forall s, exists seg, PyStr.last_item (PyStr.split "/" s) = Some seg).
  { intros s.
    destruct (PyStrFacts.last_item_is_Some _ (PyStrFacts.split_not_nil "/" s)); eauto. }
  assert (Hend : forall (h0 : History) (w0 : World),
            exists w',
              (let (o, w1) :=
                 (if truthy (archive_dir self)
                  then match fi_archive_filename fi with
                       | Some a => fun w2 : World => (Ok (set_archive_name h0 a), w2)
                       | None => fun w2 : World =>
                                   (Raise (Exn KeyError "archive_filename"), w2)
                       end
                  else fun w2 : World => (Ok h0, w2)) w0 in
               match o with
               | Ok a => (Ok tt, log (Saved a) (set_rows (history_rows w1 ++ [a]) w1))
               | Raise e => (Raise e, w1)
               end) = (Ok tt, w')).
  { intros h0 w0. destruct (truthy (archive_dir self)); [|eauto].
    destruct (Harch eq_refl) as [a ->]. eauto. }
  destruct Hd as [-> | [rest ->]].
  - unfold unpack2.
    destruct (list_ascii_of_string d) as [|a [|b [|c l]]]; cbn [fst snd];
      try change (is_class ValueError (Exn ValueError _)) with true; cbn [fst snd];
      try (destruct (Hseg d) as [seg ->]; apply Hend).
    destruct (Hseg (String a "")) as [seg ->]. apply Hend.
  - unfold unpack2.
    destruct rest as [|x [|y l]]; cbn [fst snd];
      try change (is_class ValueError (Exn ValueError _)) with true; cbn [fst snd];
      try change (is_class AttributeError (Exn AttributeError _)) with true;
      try (destruct (Hseg d) as [seg ->]); apply Hend.
Qed.

(** ** Handling an event (C1 to C4) *)

Section Transfer.

Variable env : Env.
Variable tx_sent : string.
Variable self : Handler.
Variable ev : Event.
Variable w : World.

Variable filename : string.
Variable before after : FileStat.
Variable allowed : list string.
Variable sel : pyval.
Variable d : string.

Let path := PyStr.path_join (source_dir self) filename.

(** A transfer that succeeds: the session opens, the file is there and of
    an allowed type, it is still there when [put] looks, the strategy
    yields a selection that leads to the folder [d], and the copy goes
    through. *)
Hypothesis Hconnect : ssh_connect env (hostname self) = None.
Hypothesis Hname : PyStr.last_item (PyStr.split "/" (src_path ev)) = Some filename.
Hypothesis Hbefore : local_files w !! path = Some before.
Hypothesis Hallow : mime_types self = Some allowed.
Hypothesis Hlisted : existsb (String.eqb (content_type before)) allowed = true.
Hypothesis Hafter : race env (local_files w) !! path = Some after.
Hypothesis Hsel :
  fst (select_destination_dir env self filename (content_type before) w) = Ok sel.
Hypothesis Hlead : leads_to sel d.
Hypothesis Hcopy : scp_put env path (PyStr.path_join d filename) = None.

Lemma process_added_archives_run dir :
  archive_dir self = Some dir ->
  dir <> "" ->
  let a := archive_filename (fun i => entropy env (drawn w + i)) filename in
  exists row,
    rows_after (process_added env tx_sent self ev w) = (history_rows w ++ [row])%list
    /\ h_archive_name row = Some ("archive/" +:+ a)
    /\ h_filename row = filename
    /\ h_status row = tx_sent
    /\ match rename_error env path (PyStr.path_join dir a) with
       | None =>
           fst (process_added env tx_sent self ev w) = Ok tt
           /\ trace_after (process_added env tx_sent self ev w)
              = (trace w ++ [Connected (hostname self);
                             Copied path (PyStr.path_join d filename);
                             Saved row;
                             Renamed path (PyStr.path_join dir a)])%list
           /\ files_after (process_added env tx_sent self ev w)
              = <[ PyStr.path_join dir a := after ]>
                  (delete path (race env (local_files w)))
       | Some e =>
           fst (process_added env tx_sent self ev w) = Raise e
           /\ trace_after (process_added env tx_sent self ev w)
              = (trace w ++ [Connected (hostname self);
                             Copied path (PyStr.path_join d filename);
                             Saved row])%list
           /\ files_after (process_added env tx_sent self ev w)
              = race env (local_files w)
       end.
Proof.
  intros Hdir Hne a.
  set (w1 := log (Connected (hostname self)) w).
  set (w2 := set_files (race env (local_files w1)) w1).
  set (w3 := log (Copied path (PyStr.path_join d filename)) w2).
  set (w4 := set_drawn (drawn w3 + 5) w3).
  set (fi := {| fi_path := source_dir self; fi_filename := filename;
                fi_size := st_size after;
                fi_timestamp := local_timestamp env (st_mtime after);
                fi_archive_filename := Some a |}).
  assert (Hsel2 : fst (select_destination_dir env self filename (content_type before) w2)
                  = Ok sel).
  { now rewrite (select_destination_dir_any_world env self filename _ w2 w). }
  pose proof (put_copies env self filename (content_type before) w2 sel d after
                Hsel2 Hlead Hafter Hcopy) as Hput.
  destruct (update_history_total env self fi tx_sent sel d (content_type before) w4 Hlead)
    as [w5 Hupd].
  { intros _. now eexists. }
  pose proof Hupd as Hrow.
  apply update_history_returns in Hrow
    as (row & -> & _ & Hfn & Hst & _ & Harch & _).
  set (w5 := log (Saved row) (set_rows (history_rows w4 ++ [row]) w4)) in *.
  assert (Hrun : process_added env tx_sent self ev w
                 = match rename_error env path (PyStr.path_join dir a) with
                   | Some e => (Raise e, w5)
                   | None =>
                       (Ok tt,
                        log (Renamed path (PyStr.path_join dir a))
                          (set_files (<[ PyStr.path_join dir a := after ]>
                                        (delete path (race env (local_files w))))
                             w5))
                   end).
  { unfold process_added, connect, magic_from_file, py_in, archive_filename_draw,
      os_rename.
    rewrite Hconnect, Hname, Hallow, Hdir. run_M.
    fold path. change (local_files (log (Connected (hostname self)) w))
      with (local_files w).
    rewrite Hbefore, Hlisted. cbn [orb].
    fold w1. fold w2. rewrite Hput. cbn [fst snd].
    apply String.eqb_neq in Hne. rewrite Hne. cbn [negb].
    match goal with
    | |- context [update_history env self ?f tx_sent sel ?m ?w0] =>
        change (update_history env self f tx_sent sel m w0)
          with (update_history env self fi tx_sent sel (content_type before) w4)
    end.
    rewrite Hupd.
    change (local_files w5) with (race env (local_files w)).
    rewrite Hafter.
    match goal with
    | |- context [rename_error env ?p ?q] =>
        change (rename_error env p q)
          with (rename_error env path (PyStr.path_join dir a))
    end.
    destruct (rename_error env path (PyStr.path_join dir a)); reflexivity. }
  exists row. rewrite Hrun. unfold trace_after, rows_after, files_after.
  split; [|split; [|split; [|split]]].
  - destruct (rename_error env path (PyStr.path_join dir a)); reflexivity.
  - rewrite Harch, Hdir. cbn [truthy]. apply String.eqb_neq in Hne.
    now rewrite Hne.
  - exact Hfn.
  - exact Hst.
  - destruct (rename_error env path (PyStr.path_join dir a)); cbn [fst snd];
      repeat split; cbn; now rewrite <- !app_assoc.
Qed.


End Transfer.

(** C4, as the code has it.  In a transfer with archiving enabled whose
    copy succeeds, the archive name is generated first, the History row is
    saved with that name, and only then is the source file renamed into the
    archive directory, under the same name.  When the rename succeeds, the
    effects of the run are, in this order, connect, copy, save, rename, and
    the file is at the archive path.  When the rename raises, the
    exception reaches the caller with the row already saved and the file
    still at its source path. *)
Theorem process_added_saves_then_renames
    (env : Env) (tx_sent : string) (self : Handler) (ev : Event) (w : World)
    (filename : string) (before after : FileStat) (allowed : list string)
    (sel : pyval) (d dir : string) :
  let path := PyStr.path_join (source_dir self) filename in
  let a := archive_filename (fun i => entropy env (drawn w + i)) filename in
  ssh_connect env (hostname self) = None ->
  PyStr.last_item (PyStr.split "/" (src_path ev)) = Some filename ->
  local_files w !! path = Some before ->
  mime_types self = Some allowed ->
  existsb (String.eqb (content_type before)) allowed = true ->
  race env (local_files w) !! path = Some after ->
  fst (select_destination_dir env self filename (content_type before) w) = Ok sel ->
  leads_to sel d ->
  scp_put env path (PyStr.path_join d filename) = None ->
  archive_dir self = Some dir ->
  dir <> "" ->
  exists row,
    rows_after (process_added env tx_sent self ev w) = (history_rows w ++ [row])%list
    /\ h_archive_name row = Some ("archive/" +:+ a)
    /\ (rename_error env path (PyStr.path_join dir a) = None ->
        fst (process_added env tx_sent self ev w) = Ok tt
        /\ trace_after (process_added env tx_sent self ev w)
           = (trace w ++ [Connected (hostname self);
                          Copied path (PyStr.path_join d filename);
                          Saved row;
                          Renamed path (PyStr.path_join dir a)])%list
        /\ files_after (process_added env tx_sent self ev w)
           = <[ PyStr.path_join dir a := after ]>
               (delete path (race env (local_files w))))
    /\ (forall e,
          rename_error env path (PyStr.path_join dir a) = Some e ->
          fst (process_added env tx_sent self ev w) = Raise e
          /\ trace_after (process_added env tx_sent self ev w)
             = (trace w ++ [Connected (hostname self);
                            Copied path (PyStr.path_join d filename);
                            Saved row])%list
          /\ files_after (process_added env tx_sent self ev w)
             = race env (local_files w)).
Proof.
  intros path a Hconnect Hname Hbefore Hallow Hlisted Hafter Hsel Hlead Hcopy Hdir Hne.
  destruct (process_added_archives_run env tx_sent self ev w filename before after
              allowed sel d Hconnect Hname Hbefore Hallow Hlisted Hafter Hsel Hlead
              Hcopy dir Hdir Hne)
    as (row & Hrows & Hname' & _ & _ & Hrename).
  fold path in Hrename. fold a in Hrename.
  exists row. split; [exact Hrows|]. split; [exact Hname'|]. split.
  - intros E. now rewrite E in Hrename.
  - intros e E. now rewrite E in Hrename.
Qed.

(** The theorem at "report.csv" with the archive directory "/data/archive",
    where the rename succeeds, and with that directory missing. *)
Lemma process_added_saves_then_renames_witness :
  (exists row,
     fst (process_added Scenario.env_plain Scenario.TX_SENT Scenario.handler_archive
            (Scenario.created "/data/in/report.csv") Scenario.world) = Ok tt
     /\ trace_after (process_added Scenario.env_plain Scenario.TX_SENT
                       Scenario.handler_archive
                       (Scenario.created "/data/in/report.csv") Scenario.world)
        = [Connected "edc.example.org";
           Copied "/data/in/report.csv" "/remote/in/report.csv";
           Saved row;
           Renamed "/data/in/report.csv" "/data/archive/report_4BIPW.csv"]
     /\ h_archive_name row = Some "archive/report_4BIPW.csv")
  /\ (exists row,
        fst (process_added Scenario.env_no_archive_dir Scenario.TX_SENT
               Scenario.handler_archive
               (Scenario.created "/data/in/report.csv") Scenario.world)
        = Raise (Exn FileNotFoundError "No such file or directory")
        /\ trace_after (process_added Scenario.env_no_archive_dir Scenario.TX_SENT
                          Scenario.handler_archive
                          (Scenario.created "/data/in/report.csv") Scenario.world)
           = [Connected "edc.example.org";
              Copied "/data/in/report.csv" "/remote/in/report.csv";
              Saved row]
        /\ h_archive_name row = Some "archive/report_4BIPW.csv").
Proof.
  split.
  - destruct (process_added_saves_then_renames Scenario.env_plain Scenario.TX_SENT
                Scenario.handler_archive (Scenario.created "/data/in/report.csv")
                Scenario.world "report.csv" Scenario.report Scenario.report
                ["text/csv"] (PStr "/remote/in") "/remote/in" "/data/archive")
      as (row & _ & Hname & Hdone & _);
      try reflexivity.
    + left. reflexivity.
    + discriminate.
    + destruct (Hdone eq_refl) as (Hok & Htrace & _).
      exists row. repeat split; assumption.
  - destruct (process_added_saves_then_renames Scenario.env_no_archive_dir
                Scenario.TX_SENT
                Scenario.handler_archive (Scenario.created "/data/in/report.csv")
                Scenario.world "report.csv" Scenario.report Scenario.report
                ["text/csv"] (PStr "/remote/in") "/remote/in" "/data/archive")
      as (row & _ & Hname & _ & Hfailed);
      try reflexivity.
    + left. reflexivity.
    + discriminate.
    + destruct (Hfailed _ eq_refl) as (Hraise & Htrace & _).
      exists row. repeat split; assumption.
Defined.

(** C4 as stated fails: in the run on "report.csv" with the archive
    directory "/data/archive" the row is saved before the file is renamed,
    and no rename comes before a save. *)
Lemma process_added_rename_not_before_save :
  ~ rename_precedes_save
      (trace_after (process_added Scenario.env_plain Scenario.TX_SENT
                      Scenario.handler_archive
                      (Scenario.created "/data/in/report.csv") Scenario.world)).
Proof.
  intros (i & j & source & destination & row & Hi & Hj & Hlt).
  vm_compute in Hi, Hj.
  destruct i as [|[|[|[|i]]]]; try discriminate Hi.
  destruct j as [|[|[|[|j]]]]; try discriminate Hj; lia.
Qed.

(** A type outside the allow-set: the event is abandoned after the
    connection, with the file in place and nothing recorded. *)
Lemma process_added_skips env tx_sent self ev w filename st allowed :
  ssh_connect env (hostname self) = None ->
  PyStr.last_item (PyStr.split "/" (src_path ev)) = Some filename ->
  local_files w !! PyStr.path_join (source_dir self) filename = Some st ->
  mime_types self = Some allowed ->
  existsb (String.eqb (content_type st)) allowed = false ->
  process_added env tx_sent self ev w = (Ok tt, log (Connected (hostname self)) w).
Proof.
  intros Hconnect Hname Hfile Hallow Hlisted.
  unfold process_added, connect, magic_from_file, py_in.
  rewrite Hconnect, Hname, Hallow. run_M.
  change (local_files (log (Connected (hostname self)) w)) with (local_files w).
  now rewrite Hfile, Hlisted.
Qed.


(** C1 fails on the code: "report.csv", of the allowed type text/csv, is
    relayed by a handler that has no archive directory.  The copy succeeds
    and the descriptor is not None, the source file is removed, and the
    History table stays empty: [update_history] is called in the archiving
    branch only. *)
Theorem process_added_without_archive_dir_saves_no_row :
  fst (put Scenario.env_plain Scenario.handler_delete "report.csv" "text/csv"
         Scenario.world)
  = Ok (PutPair
          (Some {| fi_path := "/data/in"; fi_filename := "report.csv";
                   fi_size := 120; fi_timestamp := 1000;
                   fi_archive_filename := None |})
          (PStr "/remote/in"))
  /\ fst (process_added Scenario.env_plain Scenario.TX_SENT Scenario.handler_delete
            (Scenario.created "/data/in/report.csv") Scenario.world) = Ok tt
  /\ trace_after (process_added Scenario.env_plain Scenario.TX_SENT
                    Scenario.handler_delete
                    (Scenario.created "/data/in/report.csv") Scenario.world)
     = [Connected "edc.example.org";
        Copied "/data/in/report.csv" "/remote/in/report.csv";
        Removed "/data/in/report.csv"]
  /\ rows_after (process_added Scenario.env_plain Scenario.TX_SENT
                   Scenario.handler_delete
                   (Scenario.created "/data/in/report.csv") Scenario.world)
     = [].
Proof. repeat split; vm_compute; reflexivity. Qed.


(** C2 fails on the code: with [mime_types] None, the test
    [mime_type in self.mime_types] is evaluated first and raises a
    [TypeError]; "report.csv" is neither copied nor removed nor recorded. *)
Theorem process_added_without_allow_set_raises :
  mime_types Scenario.handler_accept_all = None
  /\ fst (process_added Scenario.env_plain Scenario.TX_SENT Scenario.handler_accept_all
            (Scenario.created "/data/in/report.csv") Scenario.world)
     = Raise (Exn TypeError "argument of type 'NoneType' is not iterable")
  /\ trace_after (process_added Scenario.env_plain Scenario.TX_SENT
                    Scenario.handler_accept_all
                    (Scenario.created "/data/in/report.csv") Scenario.world)
     = [Connected "edc.example.org"]
  /\ rows_after (process_added Scenario.env_plain Scenario.TX_SENT
                   Scenario.handler_accept_all
                   (Scenario.created "/data/in/report.csv") Scenario.world)
     = []
  /\ files_after (process_added Scenario.env_plain Scenario.TX_SENT
                    Scenario.handler_accept_all
                    (Scenario.created "/data/in/report.csv") Scenario.world)
       !! "/data/in/report.csv"
     = Some Scenario.report.
Proof. repeat split; vm_compute; reflexivity. Qed.

(** C3 fails on the code: "report.csv" is deleted after it has been
    classified.  [put] returns None where a pair is expected, and
    [process_added] raises a [TypeError] when it unpacks the result.
    Nothing is archived, removed or recorded.  When the transport reports a
    directory instead, [put] does return a pair with a None descriptor and
    the event ends quietly. *)
Theorem process_added_vanished_source_raises :
  fst (put Scenario.env_vanish Scenario.handler_archive "report.csv" "text/csv"
         (init_world ∅ 5000))
  = Ok PutNone
  /\ fst (process_added Scenario.env_vanish Scenario.TX_SENT Scenario.handler_archive
            (Scenario.created "/data/in/report.csv") Scenario.world)
     = Raise (Exn TypeError "cannot unpack non-iterable NoneType object")
  /\ trace_after (process_added Scenario.env_vanish Scenario.TX_SENT
                    Scenario.handler_archive
                    (Scenario.created "/data/in/report.csv") Scenario.world)
     = [Connected "edc.example.org"]
  /\ rows_after (process_added Scenario.env_vanish Scenario.TX_SENT
                   Scenario.handler_archive
                   (Scenario.created "/data/in/report.csv") Scenario.world)
     = []
  /\ process_added Scenario.env_directory Scenario.TX_SENT Scenario.handler_archive
       (Scenario.created "/data/in/report.csv") Scenario.world
     = (Ok tt, log (Connected "edc.example.org") Scenario.world).
Proof. repeat split; vm_compute; reflexivity. Qed.

(** ** Destination subfolders (C7) *)

(** On a fresh instance [destination_subdir] has three possible outcomes,
    and none of them is the path of a rule's subfolder: an
    [AttributeError] when a rule exists for the base destination, the empty
    inner dict when the key is the base destination itself, and the base
    destination otherwise. *)
Lemma destination_subdir_fresh env self key files now :
  let r := fst (destination_subdir env self key (init_world files now)) in
  (exists msg, r = Raise (Exn AttributeError msg))
  \/ (key = destination_dir self /\ r = Ok (SubMap ∅))
  \/ r = Ok (SubPath (destination_dir self)).
Proof.
  unfold destination_subdir, destination_subdirs. run_M.
  cbn [init_world _destination_subdirs].
  rewrite lookup_empty. cbn [negb].
  destruct (List.filter _ (remote_folder_rows env)) as [|rule rest].
  - cbn. destruct (decide (destination_dir self = key)) as [<-|Hne].
    + rewrite lookup_singleton_eq. right. left. split; reflexivity.
    + rewrite lookup_singleton_ne by assumption. cbn. right. right. reflexivity.
  - left. cbn [for_each]. run_M.
    destruct (remote_folder env); cbn; eexists; reflexivity.
Qed.

(** C7 fails on the code.  With the rule (pdf_folder, pdf) -> pdfs for the
    base "/remote/in", looking up "pdf_folder" on a fresh instance raises an
    [AttributeError]: the loop writes to [_remote_subfolders], which is
    never assigned, not to [_destination_subdirs].  On an instance where a
    subclass has assigned it, the lookup indexes the outer dict, whose only
    key is the base destination, so both the folder name and the file hint
    yield the bare base path instead of "/remote/in/pdfs"; and the key
    "/remote/in", which matches no rule, yields the inner dict. *)
Theorem destination_subdir_never_resolves_rule :
  fst (destination_subdir Scenario.env_rules Scenario.handler_delete "pdf_folder"
         Scenario.world)
  = Raise (Exn AttributeError
             "'RemoteFolderEventHandler' object has no attribute '_remote_subfolders'")
  /\ fst (destination_subdir Scenario.env_rules Scenario.handler_delete "pdf_folder"
            Scenario.world_subclass)
     = Ok (SubPath "/remote/in")
  /\ fst (destination_subdir Scenario.env_rules Scenario.handler_delete "pdf"
            Scenario.world_subclass)
     = Ok (SubPath "/remote/in")
  /\ fst (destination_subdir Scenario.env_plain Scenario.handler_delete "/remote/in"
            Scenario.world)
     = Ok (SubMap ∅).
Proof. repeat split; vm_compute; reflexivity. Qed.

(** * Further properties of the module *)

(** ** Archive names: size, dots, repetition, collisions *)

Module ArchiveNameFacts.
Import PyStr.

(** a name with one separator has two separator-free sides *)
Lemma one_sep_sides c s :
  count c s = 1 ->
  exists f ext, s = f +:+ String c ext /\ count c f = 0 /\ count c ext = 0.
Proof.
  induction s as [|a s IH]; simpl; [discriminate|].
  destruct (Ascii.eqb a c) eqn:E.
  - apply Ascii.eqb_eq in E as ->. intros H.
    exists "", s. repeat split. lia.
  - intros H. destruct (IH H) as (f & ext & -> & Hf & He).
    exists (String a f), ext. simpl. rewrite E. repeat split; assumption.
Qed.

Lemma count_outside_class cls c s :
  all_chars cls s = true -> cls c = false -> count c s = 0.
Proof.
  unfold all_chars. induction s as [|a s IH]; simpl; [reflexivity|].
  intros H Hc. apply andb_prop in H as [Ha Hs].
  destruct (Ascii.eqb a c) eqn:E.
  - apply Ascii.eqb_eq in E as ->. congruence.
  - now rewrite IH.
Qed.

Lemma random_suffix_no_dot rand : count "." (random_suffix rand) = 0.
Proof.
  destruct (random_suffix_shape rand) as [_ H].
  now apply (count_outside_class is_upper_or_digit).
Qed.

(** equal-length heads of equal concatenations are equal *)
Lemma app_cancel_head a b r r' :
  String.length a = String.length b -> a +:+ r = b +:+ r' -> a = b.
Proof.
  revert b. induction a as [|x a IH]; intros [|y b]; simpl; try discriminate.
  - reflexivity.
  - intros [= Hlen] [= -> H]. f_equal. now apply IH.
Qed.

Lemma get_lookup k s : String.get k s = list_ascii_of_string s !! k.
Proof.
  revert k. induction s as [|a s IH]; intros [|k]; simpl; try reflexivity.
  apply IH.
Qed.

Lemma alphabet_NoDup : NoDup (list_ascii_of_string (ascii_uppercase +:+ digits)).
Proof. apply (bool_decide_unpack _). vm_compute. reflexivity. Qed.

(** the character chosen determines the index below 36, and conversely *)
Lemma choice_inj r1 r2 :
  choice r1 (ascii_uppercase +:+ digits) = choice r2 (ascii_uppercase +:+ digits)
  <-> r1 mod 36 = r2 mod 36.
Proof.
  unfold choice.
  change (String.length (ascii_uppercase +:+ digits)) with 36.
  split; [|now intros ->].
  assert (H1 : r1 mod 36 < 36) by (apply Nat.mod_upper_bound; lia).
  assert (H2 : r2 mod 36 < 36) by (apply Nat.mod_upper_bound; lia).
  rewrite !get_lookup.
  destruct (list_ascii_of_string (ascii_uppercase +:+ digits) !! (r1 mod 36))
    as [a1|] eqn:E1.
  2: { apply lookup_ge_None in E1. vm_compute length in E1. lia. }
  destruct (list_ascii_of_string (ascii_uppercase +:+ digits) !! (r2 mod 36))
    as [a2|] eqn:E2.
  2: { apply lookup_ge_None in E2. vm_compute length in E2. lia. }
  intros [= ->]. exact (NoDup_lookup _ _ _ _ alphabet_NoDup E1 E2).
Qed.

Lemma random_suffix_eq r1 r2 :
  random_suffix r1 = random_suffix r2
  <-> forall i, i < 5 -> r1 i mod 36 = r2 i mod 36.
Proof.
  unfold random_suffix. cbn [seq map].
  split.
  - destruct (choice_alphabet (r1 0)) as (a0 & E0 & _).
    destruct (choice_alphabet (r1 1)) as (a1 & E1 & _).
    destruct (choice_alphabet (r1 2)) as (a2 & E2 & _).
    destruct (choice_alphabet (r1 3)) as (a3 & E3 & _).
    destruct (choice_alphabet (r1 4)) as (a4 & E4 & _).
    destruct (choice_alphabet (r2 0)) as (b0 & F0 & _).
    destruct (choice_alphabet (r2 1)) as (b1 & F1 & _).
    destruct (choice_alphabet (r2 2)) as (b2 & F2 & _).
    destruct (choice_alphabet (r2 3)) as (b3 & F3 & _).
    destruct (choice_alphabet (r2 4)) as (b4 & F4 & _).
    rewrite E0, E1, E2, E3, E4, F0, F1, F2, F3, F4. simpl.
    intros [= -> -> -> -> ->].
    rewrite <- F0 in E0. rewrite <- F1 in E1. rewrite <- F2 in E2.
    rewrite <- F3 in E3. rewrite <- F4 in E4.
    apply choice_inj in E0, E1, E2, E3, E4.
    intros i Hi. destruct i as [|[|[|[|[|i]]]]]; try assumption. lia.
  - intros H.
    rewrite (proj2 (choice_inj (r1 0) (r2 0)) (H 0 ltac:(lia))).
    rewrite (proj2 (choice_inj (r1 1) (r2 1)) (H 1 ltac:(lia))).
    rewrite (proj2 (choice_inj (r1 2) (r2 2)) (H 2 ltac:(lia))).
    rewrite (proj2 (choice_inj (r1 3) (r2 3)) (H 3 ltac:(lia))).
    rewrite (proj2 (choice_inj (r1 4) (r2 4)) (H 4 ltac:(lia))).
    reflexivity.
Qed.

(** every archive name is [stem_SUFFIX.ext] for a stem and an extension
    that depend on the filename alone *)
Lemma archive_filename_form filename :
  exists stem ext,
    (if Nat.eqb (count "." filename) 1
     then filename = stem +:+ "." +:+ ext /\ count "." stem = 0 /\ count "." ext = 0
     else stem = filename /\ ext = "")
    /\ forall rand,
         archive_filename rand filename
         = (stem +:+ "_" +:+ random_suffix rand) +:+ "." +:+ ext.
Proof.
  destruct (Nat.eqb (count "." filename) 1) eqn:E.
  - apply Nat.eqb_eq in E. destruct (one_sep_sides _ _ E) as (f & ext & -> & Hf & He).
    exists f, ext. split; [repeat split; assumption|].
    intros rand. now apply archive_filename_with_ext.
  - apply Nat.eqb_neq in E. exists filename, "". split; [split; reflexivity|].
    intros rand. now apply archive_filename_without_ext.
Qed.

Lemma archive_filename_length_eq rand filename :
  String.length (archive_filename rand filename)
  = String.length filename + (if Nat.eqb (count "." filename) 1 then 6 else 7).
Proof.
  destruct (archive_filename_form filename) as (stem & ext & Hform & ->).
  destruct (random_suffix_shape rand) as [Hlen _].
  rewrite !PyStrFacts.app_length, Hlen.
  destruct (Nat.eqb (count "." filename) 1).
  - destruct Hform as (-> & _ & _). rewrite !PyStrFacts.app_length. simpl. lia.
  - destruct Hform as [-> ->]. simpl. lia.
Qed.

Lemma archive_filename_differs rand filename : archive_filename rand filename <> filename.
Proof.
  intros E. pose proof (archive_filename_length_eq rand filename) as H.
  rewrite E in H. destruct (Nat.eqb _ 1); lia.
Qed.

End ArchiveNameFacts.

(** X1. The archive name is always longer than the filename: by six
    characters when the filename has exactly one dot (underscore and
    suffix), by seven otherwise (a dot is added as well).  So it is never
    the filename itself. *)
Theorem archive_filename_length (rand : nat -> nat) (filename : string) :
  String.length (archive_filename rand filename)
  = String.length filename + (if Nat.eqb (PyStr.count "." filename) 1 then 6 else 7)
  /\ archive_filename rand filename <> filename.
Proof.
  split.
  - apply ArchiveNameFacts.archive_filename_length_eq.
  - apply ArchiveNameFacts.archive_filename_differs.
Qed.

(** X2. The suffix never contains a dot, so the archive name of a filename
    with exactly one dot has exactly one dot, and every other archive name
    has one dot more than the filename, the last character. *)
Theorem archive_filename_dots (rand : nat -> nat) (filename : string) :
  PyStr.count "." (archive_filename rand filename)
  = (if Nat.eqb (PyStr.count "." filename) 1 then 1
     else PyStr.count "." filename + 1).
Proof.
  destruct (ArchiveNameFacts.archive_filename_form filename) as (stem & ext & Hform & ->).
  rewrite !PyStrFacts.count_app, ArchiveNameFacts.random_suffix_no_dot.
  destruct (Nat.eqb (PyStr.count "." filename) 1).
  - destruct Hform as (-> & Hf & He). rewrite Hf, He. reflexivity.
  - destruct Hform as [-> ->]. simpl. lia.
Qed.

(** X3. Archiving an archived name: for a filename [f.ext] with one dot,
    the second call sees one dot again and inserts its own suffix after the
    first, before the same extension. *)
Theorem archive_filename_twice (rand1 rand2 : nat -> nat) (f ext : string) :
  PyStr.count "." f = 0 ->
  PyStr.count "." ext = 0 ->
  archive_filename rand2 (archive_filename rand1 (f +:+ "." +:+ ext))
  = ((f +:+ "_" +:+ random_suffix rand1) +:+ "_" +:+ random_suffix rand2)
    +:+ "." +:+ ext.
Proof.
  intros Hf He. rewrite archive_filename_with_ext by assumption.
  apply archive_filename_with_ext; [|assumption].
  rewrite !PyStrFacts.count_app, Hf, ArchiveNameFacts.random_suffix_no_dot.
  reflexivity.
Qed.

(** The theorem at "report.csv". *)
Lemma archive_filename_twice_witness :
  archive_filename (fun i => i) (archive_filename (fun i => 7 * i + 30) "report.csv")
  = "report_4BIPW_ABCDE.csv".
Proof.
  exact (archive_filename_twice (fun i => 7 * i + 30) (fun i => i) "report" "csv"
           eq_refl eq_refl).
Defined.

(** X4. Two archive names of the same filename collide exactly when the
    five draws agree modulo 36; nothing else of the generator matters. *)
Theorem archive_filename_collision (rand1 rand2 : nat -> nat) (filename : string) :
  archive_filename rand1 filename = archive_filename rand2 filename
  <-> forall i, i < 5 -> rand1 i mod 36 = rand2 i mod 36.
Proof.
  rewrite <- ArchiveNameFacts.random_suffix_eq.
  destruct (ArchiveNameFacts.archive_filename_form filename) as (stem & ext & _ & Hform).
  rewrite !Hform. split; [|now intros ->].
  rewrite !PyStrFacts.app_assoc. intros H.
  apply (inj (String.append stem)) in H.
  injection H as H.
  apply ArchiveNameFacts.app_cancel_head in H; [assumption|].
  destruct (random_suffix_shape rand1) as [-> _].
  destruct (random_suffix_shape rand2) as [-> _]. reflexivity.
Qed.

(** ** The audit record: errors and defaults *)

(** [update_history] returns for every selection that can be iterated,
    provided the archive name is there when it is needed. *)
Lemma update_history_total_iterable env self fi status sel mime_type w :
  iterable sel = true ->
  (truthy (archive_dir self) = true -> is_Some (fi_archive_filename fi)) ->
  exists w', update_history env self fi status sel mime_type w = (Ok tt, w').
Proof.
  intros Hit Harch. unfold update_history. run_M.
  assert (Hseg : forall s, exists seg, PyStr.last_item (PyStr.split "/" s) = Some seg).
  { intros s.
    destruct (PyStrFacts.last_item_is_Some _ (PyStrFacts.split_not_nil "/" s)); eauto. }
  assert (Hend : forall (h0 : History) (w0 : World),
            exists w',
              (let (o, w1) :=
                 (if truthy (archive_dir self)
                  then match fi_archive_filename fi with
                       | Some a => fun w2 : World => (Ok (set_archive_name h0 a), w2)
                       | None => fun w2 : World =>
                                   (Raise (Exn KeyError "archive_filename"), w2)
                       end
                  else fun w2 : World => (Ok h0, w2)) w0 in
               match o with
               | Ok a => (Ok tt, log (Saved a) (set_rows (history_rows w1 ++ [a]) w1))
               | Raise e => (Raise e, w1)
               end) = (Ok tt, w')).
  { intros h0 w0. destruct (truthy (archive_dir self)); [|eauto].
    destruct (Harch eq_refl) as [a ->]. eauto. }
  destruct sel as [|d|z|items]; try discriminate Hit.
  - unfold unpack2.
    destruct (list_ascii_of_string d) as [|a [|b [|c l]]]; cbn [fst snd];
      try change (is_class ValueError (Exn ValueError _)) with true; cbn [fst snd];
      try (destruct (Hseg d) as [seg ->]; apply Hend).
    destruct (Hseg (String a "")) as [seg ->]. apply Hend.
  - unfold unpack2.
    destruct items as [|x [|y [|z l]]]; cbn [fst snd];
      try change (is_class ValueError (Exn ValueError _)) with true; cbn [fst snd];
      try change (is_class AttributeError (Exn AttributeError _)) with true;
      try apply Hend.
    destruct x as [|d| |]; 
      try change (is_class AttributeError (Exn AttributeError _)) with true;
      try (destruct (Hseg d) as [seg ->]); apply Hend.
Qed.

(** X5. A selection that cannot be iterated (None, a number) makes the
    unpacking raise a [TypeError], which the [except ValueError] clause does
    not catch: [update_history] raises it and saves nothing. *)
Theorem update_history_not_iterable
    (env : Env) (self : Handler) (fi : FileInfo) (status : string)
    (sel : pyval) (mime_type : string) (w : World) :
  iterable sel = false ->
  exists e,
    update_history env self fi status sel mime_type w = (Raise e, w)
    /\ is_class TypeError e = true.
Proof.
  intros H. destruct sel; try discriminate H; eexists; split; reflexivity.
Qed.

(** The theorem at the selection None. *)
Lemma update_history_not_iterable_witness :
  exists e,
    update_history Scenario.env_plain Scenario.handler_delete Scenario.fileinfo
      Scenario.TX_SENT PNone "text/csv" Scenario.world
    = (Raise e, Scenario.world)
    /\ is_class TypeError e = true.
Proof.
  apply (update_history_not_iterable Scenario.env_plain Scenario.handler_delete
           Scenario.fileinfo Scenario.TX_SENT PNone "text/csv" Scenario.world).
  reflexivity.
Defined.

(** X6. With an archive directory configured, a descriptor that has no
    [archive_filename] key makes [update_history] raise a [KeyError] for
    that key, after the selection has been unpacked; nothing is saved. *)
Theorem update_history_missing_archive_filename
    (env : Env) (self : Handler) (fi : FileInfo) (status : string)
    (sel : pyval) (mime_type : string) (w : World) :
  iterable sel = true ->
  truthy (archive_dir self) = true ->
  fi_archive_filename fi = None ->
  update_history env self fi status sel mime_type w
  = (Raise (Exn KeyError "archive_filename"), w).
Proof.
  intros Hit Harch Hkey. unfold update_history. run_M.
  assert (Hseg : forall s, exists seg, PyStr.last_item (PyStr.split "/" s) = Some seg).
  { intros s.
    destruct (PyStrFacts.last_item_is_Some _ (PyStrFacts.split_not_nil "/" s)); eauto. }
  rewrite Harch, Hkey.
  destruct sel as [|d|z|items]; try discriminate Hit.
  - unfold unpack2.
    destruct (list_ascii_of_string d) as [|a [|b [|c l]]]; cbn [fst snd];
      try change (is_class ValueError (Exn ValueError _)) with true; cbn [fst snd];
      try (destruct (Hseg d) as [seg ->]; reflexivity).
    destruct (Hseg (String a "")) as [seg ->]. reflexivity.
  - unfold unpack2.
    destruct items as [|x [|y [|z l]]]; cbn [fst snd];
      try change (is_class ValueError (Exn ValueError _)) with true; cbn [fst snd];
      try change (is_class AttributeError (Exn AttributeError _)) with true;
      try reflexivity.
    destruct x as [|d| |];
      try change (is_class AttributeError (Exn AttributeError _)) with true;
      try (destruct (Hseg d) as [seg ->]); reflexivity.
Qed.

(** The theorem at the descriptor as [statinfo] returns it. *)
Lemma update_history_missing_archive_filename_witness :
  update_history Scenario.env_plain Scenario.handler_archive Scenario.fileinfo_plain
    Scenario.TX_SENT (PStr "/remote/in") "text/csv" Scenario.world
  = (Raise (Exn KeyError "archive_filename"), Scenario.world).
Proof.
  apply (update_history_missing_archive_filename Scenario.env_plain
           Scenario.handler_archive Scenario.fileinfo_plain Scenario.TX_SENT
           (PStr "/remote/in") "text/csv" Scenario.world);
    reflexivity.
Defined.

(** X7. A list or tuple that is not a pair starting with a path (a triple
    from the strategy, say, or a pair whose first item is not a string) is
    still accepted: the row is saved with the folder "default", and with a
    hint only when the selection has exactly two items. *)
Theorem update_history_default_folder
    (env : Env) (self : Handler) (fi : FileInfo) (status : string)
    (items : list pyval) (mime_type : string) (w : World) :
  (truthy (archive_dir self) = true -> is_Some (fi_archive_filename fi)) ->
  match items with
  | [PStr _; _] => False
  | _ => True
  end ->
  exists row,
    update_history env self fi status (PSeq items) mime_type w
    = (Ok tt, log (Saved row) (set_rows (history_rows w ++ [row]) w))
    /\ h_remote_folder row = "default"
    /\ h_remote_folder_hint row
       = match items with
         | [_; hint] => hint
         | _ => PNone
         end.
Proof.
  intros Harch Hshape.
  destruct (update_history_total_iterable env self fi status (PSeq items) mime_type w
              eq_refl Harch) as [w' E].
  pose proof E as E'.
  apply update_history_returns in E' as (row & -> & _ & _ & _ & _ & _ & Hhint & Hfolder).
  exists row. split; [exact E|].
  rewrite Hhint, Hfolder.
  destruct items as [|x [|y [|z l]]]; cbn; try (split; reflexivity).
  destruct x; try (split; reflexivity). destruct Hshape.
Qed.

(** The theorem at a triple of folder, hint and one more item. *)
Lemma update_history_default_folder_witness :
  exists row,
    update_history Scenario.env_plain Scenario.handler_archive Scenario.fileinfo
      Scenario.TX_SENT (PSeq [PStr "/remote/in/csvs"; PStr "csv"; PInt 1]) "text/csv"
      Scenario.world
    = (Ok tt, log (Saved row)
                (set_rows (history_rows Scenario.world ++ [row]) Scenario.world))
    /\ h_remote_folder row = "default"
    /\ h_remote_folder_hint row = PNone.
Proof.
  apply (update_history_default_folder Scenario.env_plain Scenario.handler_archive
           Scenario.fileinfo Scenario.TX_SENT
           [PStr "/remote/in/csvs"; PStr "csv"; PInt 1] "text/csv" Scenario.world).
  - intros _. eexists. reflexivity.
  - exact I.
Defined.

(** X8. When [update_history] returns, it has appended exactly one row and
    touched nothing else: the local files are as before and the only new
    effect is the save.  The row takes the two host names, the source
    directory, the archive directory and the user from the handler, name,
    size and timestamp from the descriptor, and the time of sending from
    the clock, not from the file. *)
Theorem update_history_appends_one_row
    (env : Env) (self : Handler) (fi : FileInfo) (status : string)
    (sel : pyval) (mime_type : string) (w w' : World) :
  update_history env self fi status sel mime_type w = (Ok tt, w') ->
  exists row,
    history_rows w' = (history_rows w ++ [row])%list
    /\ trace w' = (trace w ++ [Saved row])%list
    /\ local_files w' = local_files w
    /\ h_hostname row = gethostname env
    /\ h_remote_hostname row = hostname self
    /\ h_path row = source_dir self
    /\ h_archive_path row = archive_dir self
    /\ h_user row = user self
    /\ h_filename row = fi_filename fi
    /\ h_filesize row = fi_size fi
    /\ h_filetimestamp row = fi_timestamp fi
    /\ h_sent_datetime row = clock w.
Proof.
  unfold update_history. run_M.
  destruct (unpack2 sel) as [[d hint]|e]; cbn [fst snd].
  - destruct d as [|d|z|items]; cbn [is_class];
      try (destruct (truthy (archive_dir self));
           [destruct (fi_archive_filename fi)|];
           intros [= <-]; eexists; repeat split; reflexivity).
    destruct (PyStr.last_item (PyStr.split "/" d)) eqn:E;
      [|change (is_class AttributeError (Exn IndexError "list index out of range"))
          with false; discriminate].
    destruct (truthy (archive_dir self));
      [destruct (fi_archive_filename fi)|];
      intros [= <-]; eexists; repeat split; reflexivity.
  - destruct (is_class ValueError e); [|discriminate]. cbn [fst snd].
    destruct sel as [|d|z|items];
      try (change (is_class AttributeError
                     (Exn AttributeError "object has no attribute 'split'"))
             with true;
           destruct (truthy (archive_dir self));
           [destruct (fi_archive_filename fi)|];
           intros [= <-]; eexists; repeat split; reflexivity).
    destruct (PyStr.last_item (PyStr.split "/" d)) eqn:E;
      [|change (is_class AttributeError (Exn IndexError "list index out of range"))
          with false; discriminate].
    destruct (truthy (archive_dir self));
      [destruct (fi_archive_filename fi)|];
      intros [= <-]; eexists; repeat split; reflexivity.
Qed.

(** The theorem at the bare selection "/remote/in". *)
Lemma update_history_appends_one_row_witness :
  exists row,
    rows_after (update_history Scenario.env_plain Scenario.handler_archive
                  Scenario.fileinfo Scenario.TX_SENT (PStr "/remote/in") "text/csv"
                  Scenario.world)
    = [row]
    /\ h_sent_datetime row = 5000%Z
    /\ h_filetimestamp row = 1000%Z.
Proof.
  destruct (update_history_appends_one_row Scenario.env_plain Scenario.handler_archive
              Scenario.fileinfo Scenario.TX_SENT (PStr "/remote/in") "text/csv"
              Scenario.world
              (snd (update_history Scenario.env_plain Scenario.handler_archive
                      Scenario.fileinfo Scenario.TX_SENT (PStr "/remote/in") "text/csv"
                      Scenario.world)))
    as (row & Hrows & _ & _ & _ & _ & _ & _ & _ & _ & _ & Hts & Hsent).
  - reflexivity.
  - exists row. repeat split; assumption.
Defined.

(** ** The copy step: what it returns and what it leaves alone *)

(** The four ways [put] can end. *)
Lemma put_cases env self filename mime_type w :
  let source := PyStr.path_join (source_dir self) filename in
  (exists e, put env self filename mime_type w = (Raise e, w))
  \/ (put env self filename mime_type w = (Ok PutNone, w)
      /\ local_files w !! source = None)
  \/ (exists sel, put env self filename mime_type w = (Ok (PutPair None sel), w))
  \/ (exists sel d st,
        leads_to sel d
        /\ local_files w !! source = Some st
        /\ fst (select_destination_dir env self filename mime_type w) = Ok sel
        /\ scp_put env source (PyStr.path_join d filename) = None
        /\ put env self filename mime_type w
           = (Ok (PutPair
                    (Some {| fi_path := source_dir self; fi_filename := filename;
                             fi_size := st_size st;
                    fi_timestamp := local_timestamp env (st_mtime st);
                             fi_archive_filename := None |})
                    sel),
              log (Copied source (PyStr.path_join d filename)) w)).
Proof.
  intros source.
  destruct (fst (select_destination_dir env self filename mime_type w)) as [sel|e] eqn:Hsel.
  2: { left. exists e. unfold put. run_M.
       now rewrite (select_destination_dir_any_world env self filename mime_type w w), Hsel. }
  assert (Hbad : forall e,
            match sel with
            | PStr _ | PSeq (PStr _ :: _) => False
            | PSeq [] => e = Exn IndexError "list index out of range"
            | _ => e = Exn TypeError "expected str, bytes or os.PathLike object"
            end ->
            put env self filename mime_type w = (Raise e, w)).
  { intros e He. unfold put. run_M.
    rewrite (select_destination_dir_any_world env self filename mime_type w w), Hsel.
    destruct sel as [| | |[|[] ?]]; try destruct He; subst; reflexivity. }
  assert (Hlead : (exists d, leads_to sel d)
                  \/ exists e, put env self filename mime_type w = (Raise e, w)).
  { destruct sel as [|d| |[|[|d| |] rest]];
      try (right; eexists; apply Hbad; reflexivity).
    - left. exists d. now left.
    - left. exists d. right. now exists rest. }
  destruct Hlead as [[d Hd]|Hraise]; [|left; exact Hraise].
  destruct (local_files w !! source) as [st|] eqn:Hfile.
  2: { right. left. split; [|reflexivity].
       now apply (put_vanished env self filename mime_type w sel d). }
  destruct (scp_put env source (PyStr.path_join d filename)) as [e|] eqn:Hput.
  - destruct (is_class IsADirectoryError e) eqn:He.
    + right. right. left. exists sel.
      now apply (put_is_a_directory env self filename mime_type w sel d st e).
    + left. exists e. unfold put, statinfo. run_M.
      rewrite (select_destination_dir_any_world env self filename mime_type w w), Hsel.
      fold source in Hput |- *.
      destruct Hd as [-> | [rest ->]]; rewrite Hfile; cbn; rewrite Hfile, Hput, He;
        reflexivity.
  - right. right. right. exists sel, d, st. repeat split; try assumption.
    now apply put_copies.
Qed.

(** X9. [put] only copies.  Whatever the routing, the file system and the
    transport do, it leaves the local files and the History table as they
    are, and it records a copy exactly when it returns a descriptor. *)
Theorem put_only_copies
    (env : Env) (self : Handler) (filename mime_type : string) (w : World) :
  files_after (put env self filename mime_type w) = local_files w
  /\ rows_after (put env self filename mime_type w) = history_rows w
  /\ ((trace_after (put env self filename mime_type w) = trace w
       /\ forall fi sel,
            fst (put env self filename mime_type w) <> Ok (PutPair (Some fi) sel))
      \/ exists fi sel destination,
           fst (put env self filename mime_type w) = Ok (PutPair (Some fi) sel)
           /\ trace_after (put env self filename mime_type w)
              = (trace w
                 ++ [Copied (PyStr.path_join (source_dir self) filename) destination])%list).
Proof.
  unfold files_after, rows_after, trace_after.
  destruct (put_cases env self filename mime_type w)
    as [[e ->] | [[-> _] | [[sel ->] | (sel & d & st & _ & _ & _ & _ & ->)]]];
    cbn [fst snd];
    repeat split; try reflexivity;
    try (left; split; [reflexivity | intros; discriminate]).
  right. do 3 eexists. split; reflexivity.
Qed.

(** X10. A selection that does not start with a path is refused before the
    source file is looked at: an empty list or tuple is an [IndexError], and
    a first item (or a bare selection) that is not a string is a
    [TypeError] from joining the paths.  Nothing is copied. *)
Theorem put_rejects_selection
    (env : Env) (self : Handler) (filename mime_type : string) (w : World)
    (sel : pyval) :
  fst (select_destination_dir env self filename mime_type w) = Ok sel ->
  match sel with
  | PStr _ | PSeq (PStr _ :: _) => True
  | PSeq [] =>
      exists e, put env self filename mime_type w = (Raise e, w)
                /\ is_class IndexError e = true
  | _ =>
      exists e, put env self filename mime_type w = (Raise e, w)
                /\ is_class TypeError e = true
  end.
Proof.
  intros Hsel.
  destruct sel as [|d| |[|[|d| |] rest]]; try exact I;
    eexists;
    (split;
     [unfold put; run_M;
      rewrite (select_destination_dir_any_world env self filename mime_type w w), Hsel;
      reflexivity
     |reflexivity]).
Qed.

(** The theorem at a strategy that returns None. *)
Lemma put_rejects_selection_witness :
  exists e,
    put Scenario.env_none Scenario.handler_delete "report.csv" "text/csv" Scenario.world
    = (Raise e, Scenario.world)
    /\ is_class TypeError e = true.
Proof.
  apply (put_rejects_selection Scenario.env_none Scenario.handler_delete "report.csv"
           "text/csv" Scenario.world PNone).
  reflexivity.
Defined.



(** ** Handling an event: failures, skips and the shape of a run *)

(** X12. When the session cannot be opened, [process_added] raises and
    does nothing else: the file is not even classified.  An
    [AuthenticationException], or an instance of a subclass of it, becomes
    a plain [AuthenticationException] that names the user and the host.  A
    [BadHostKeyException] is not re-raised: building the new one from a
    single message fails, and the caller gets a [TypeError].  An exception
    that is an instance of neither class reaches the caller as it was
    raised. *)
Theorem process_added_connection_failure
    (env : Env) (tx_sent : string) (self : Handler) (ev : Event) (w : World) (e : exn) :
  ssh_connect env (hostname self) = Some e ->
  exists e',
    process_added env tx_sent self ev w = (Raise e', w)
    /\ (is_class AuthenticationException e = true ->
        e' = Exn AuthenticationException
               ("Got " +:+ exn_msg e +:+ ". Add user " +:+ user self
                +:+ " to authorized_keys on host " +:+ hostname self))
    /\ (is_class AuthenticationException e = false ->
        is_class BadHostKeyException e = true ->
        is_class TypeError e' = true
        /\ is_class BadHostKeyException e' = false)
    /\ (is_class AuthenticationException e = false ->
        is_class BadHostKeyException e = false ->
        e' = e).
Proof.
  intros H. unfold process_added, connect. rewrite H. run_M.
  destruct (is_class AuthenticationException e).
  - eexists. split; [reflexivity|]. repeat split; try reflexivity; discriminate.
  - destruct (is_class BadHostKeyException e).
    + eexists. split; [reflexivity|]. repeat split; try reflexivity; discriminate.
    + exists e. split; [reflexivity|]. repeat split; try reflexivity; discriminate.
Qed.

(** The theorem at a server that refuses the key, at a server that asks
    for a password (a subclass of the authentication failure), and at a
    server whose host key is not the known one. *)
Lemma process_added_connection_failure_witness :
  process_added Scenario.env_refused Scenario.TX_SENT Scenario.handler_delete
    (Scenario.created "/data/in/report.csv") Scenario.world
  = (Raise (Exn AuthenticationException
              "Got Authentication failed.. Add user erik to authorized_keys on host edc.example.org"),
     Scenario.world)
  /\ process_added Scenario.env_password Scenario.TX_SENT Scenario.handler_delete
       (Scenario.created "/data/in/report.csv") Scenario.world
     = (Raise (Exn AuthenticationException
                 "Got Private key file is encrypted. Add user erik to authorized_keys on host edc.example.org"),
        Scenario.world)
  /\ exists e',
       process_added Scenario.env_bad_host_key Scenario.TX_SENT Scenario.handler_delete
         (Scenario.created "/data/in/report.csv") Scenario.world
       = (Raise e', Scenario.world)
       /\ is_class TypeError e' = true.
Proof.
  split; [|split].
  - destruct (process_added_connection_failure Scenario.env_refused Scenario.TX_SENT
                Scenario.handler_delete (Scenario.created "/data/in/report.csv")
                Scenario.world
                (Exn AuthenticationException "Authentication failed.") eq_refl)
      as (e' & Hrun & Hauth & _).
    rewrite Hrun, (Hauth eq_refl). reflexivity.
  - destruct (process_added_connection_failure Scenario.env_password Scenario.TX_SENT
                Scenario.handler_delete (Scenario.created "/data/in/report.csv")
                Scenario.world
                (Exn (Subclass "PasswordRequiredException" AuthenticationException)
                   "Private key file is encrypted")
                eq_refl)
      as (e' & Hrun & Hauth & _).
    rewrite Hrun, (Hauth eq_refl). reflexivity.
  - destruct (process_added_connection_failure Scenario.env_bad_host_key
                Scenario.TX_SENT
                Scenario.handler_delete (Scenario.created "/data/in/report.csv")
                Scenario.world
                (Exn BadHostKeyException
                   "Host key for server edc.example.org does not match!")
                eq_refl)
      as (e' & Hrun & _ & Hkey & _).
    exists e'. split; [exact Hrun|]. apply (Hkey eq_refl eq_refl).
Defined.

(** X13. A file whose type is outside the allow-set is skipped after the
    connection has been made: the call returns, the local files and the
    History table are as before, and the connection is the only effect. *)
Theorem process_added_skip_leaves_file
    (env : Env) (tx_sent : string) (self : Handler) (ev : Event) (w : World)
    (filename : string) (st : FileStat) (allowed : list string) :
  ssh_connect env (hostname self) = None ->
  PyStr.last_item (PyStr.split "/" (src_path ev)) = Some filename ->
  local_files w !! PyStr.path_join (source_dir self) filename = Some st ->
  mime_types self = Some allowed ->
  existsb (String.eqb (content_type st)) allowed = false ->
  fst (process_added env tx_sent self ev w) = Ok tt
  /\ files_after (process_added env tx_sent self ev w) = local_files w
  /\ rows_after (process_added env tx_sent self ev w) = history_rows w
  /\ trace_after (process_added env tx_sent self ev w)
     = (trace w ++ [Connected (hostname self)])%list.
Proof.
  intros H1 H2 H3 H4 H5.
  rewrite (process_added_skips env tx_sent self ev w filename st allowed H1 H2 H3 H4 H5).
  repeat split.
Qed.

(** The theorem at "report.csv" with the allow-set {application/pdf}. *)
Lemma process_added_skip_leaves_file_witness :
  fst (process_added Scenario.env_plain Scenario.TX_SENT Scenario.handler_pdf_only
         (Scenario.created "/data/in/report.csv") Scenario.world) = Ok tt
  /\ files_after (process_added Scenario.env_plain Scenario.TX_SENT
                    Scenario.handler_pdf_only
                    (Scenario.created "/data/in/report.csv") Scenario.world)
     = Scenario.files
  /\ rows_after (process_added Scenario.env_plain Scenario.TX_SENT
                   Scenario.handler_pdf_only
                   (Scenario.created "/data/in/report.csv") Scenario.world)
     = []
  /\ trace_after (process_added Scenario.env_plain Scenario.TX_SENT
                    Scenario.handler_pdf_only
                    (Scenario.created "/data/in/report.csv") Scenario.world)
     = [Connected "edc.example.org"].
Proof.
  apply (process_added_skip_leaves_file Scenario.env_plain Scenario.TX_SENT
           Scenario.handler_pdf_only (Scenario.created "/data/in/report.csv")
           Scenario.world "report.csv" Scenario.report ["application/pdf"]);
    reflexivity.
Defined.

Section TransportFailure.

Variable env : Env.
Variable tx_sent : string.
Variable self : Handler.
Variable ev : Event.
Variable w : World.
Variable filename : string.
Variable before after : FileStat.
Variable allowed : list string.
Variable sel : pyval.
Variable d : string.
Variable e : exn.

Let path := PyStr.path_join (source_dir self) filename.

Hypothesis Hconnect : ssh_connect env (hostname self) = None.
Hypothesis Hname : PyStr.last_item (PyStr.split "/" (src_path ev)) = Some filename.
Hypothesis Hbefore : local_files w !! path = Some before.
Hypothesis Hallow : mime_types self = Some allowed.
Hypothesis Hlisted : existsb (String.eqb (content_type before)) allowed = true.
Hypothesis Hafter : race env (local_files w) !! path = Some after.
Hypothesis Hsel :
  fst (select_destination_dir env self filename (content_type before) w) = Ok sel.
Hypothesis Hlead : leads_to sel d.
Hypothesis Hcopy : scp_put env path (PyStr.path_join d filename) = Some e.

(** the run when the transport raises [e] *)
Lemma process_added_transport_run :
  process_added env tx_sent self ev w
  = (if is_class IsADirectoryError e then Ok tt else Raise e,
     set_files (race env (local_files w)) (log (Connected (hostname self)) w)).
Proof.
  set (w1 := log (Connected (hostname self)) w).
  set (w2 := set_files (race env (local_files w1)) w1).
  assert (Hsel2 : fst (select_destination_dir env self filename (content_type before) w2)
                  = Ok sel).
  { now rewrite (select_destination_dir_any_world env self filename _ w2 w). }
  assert (Hput : put env self filename (content_type before) w2
                 = (if is_class IsADirectoryError e
                    then Ok (PutPair None sel) else Raise e, w2)).
  { destruct (is_class IsADirectoryError e) eqn:He.
    - now apply (put_is_a_directory env self filename _ w2 sel d after e).
    - assert (Hfile : local_files w2 !! PyStr.path_join (source_dir self) filename
                      = Some after) by exact Hafter.
      assert (Hcopy' : scp_put env (PyStr.path_join (source_dir self) filename)
                         (PyStr.path_join d filename) = Some e) by exact Hcopy.
      clearbody w2. unfold put, statinfo. run_M.
      rewrite (select_destination_dir_any_world env self filename _ w2 w2), Hsel2.
      destruct Hlead as [-> | [rest ->]]; rewrite Hfile; cbn;
        rewrite Hfile, Hcopy', He; reflexivity. }
  unfold process_added, connect, magic_from_file, py_in.
  rewrite Hconnect, Hname, Hallow. run_M.
  fold path. change (local_files (log (Connected (hostname self)) w))
    with (local_files w).
  rewrite Hbefore, Hlisted. cbn [orb].
  fold w1. fold w2. rewrite Hput.
  destruct (is_class IsADirectoryError e); reflexivity.
Qed.

End TransportFailure.

(** X14. A transport failure other than "is a directory" is not caught
    anywhere: [process_added] raises the very exception of [scp.put], the
    source file stays where it is, and nothing is recorded. *)
Theorem process_added_transport_failure
    (env : Env) (tx_sent : string) (self : Handler) (ev : Event) (w : World)
    (filename : string) (before after : FileStat) (allowed : list string)
    (sel : pyval) (d : string) (e : exn) :
  let path := PyStr.path_join (source_dir self) filename in
  ssh_connect env (hostname self) = None ->
  PyStr.last_item (PyStr.split "/" (src_path ev)) = Some filename ->
  local_files w !! path = Some before ->
  mime_types self = Some allowed ->
  existsb (String.eqb (content_type before)) allowed = true ->
  race env (local_files w) !! path = Some after ->
  fst (select_destination_dir env self filename (content_type before) w) = Ok sel ->
  leads_to sel d ->
  scp_put env path (PyStr.path_join d filename) = Some e ->
  is_class IsADirectoryError e = false ->
  fst (process_added env tx_sent self ev w) = Raise e
  /\ files_after (process_added env tx_sent self ev w) !! path = Some after
  /\ rows_after (process_added env tx_sent self ev w) = history_rows w
  /\ trace_after (process_added env tx_sent self ev w)
     = (trace w ++ [Connected (hostname self)])%list.
Proof.
  intros path H1 H2 H3 H4 H5 H6 H7 H8 H9 He.
  rewrite (process_added_transport_run env tx_sent self ev w filename before after
             allowed sel d e H1 H2 H3 H4 H5 H6 H7 H8 H9), He.
  repeat split. exact H6.
Qed.

(** The theorem at a transport that loses the connection. *)
Lemma process_added_transport_failure_witness :
  fst (process_added Scenario.env_broken Scenario.TX_SENT Scenario.handler_archive
         (Scenario.created "/data/in/report.csv") Scenario.world)
  = Raise (Exn (OtherException "SCPException") "connection lost")
  /\ files_after (process_added Scenario.env_broken Scenario.TX_SENT
                    Scenario.handler_archive
                    (Scenario.created "/data/in/report.csv") Scenario.world)
       !! "/data/in/report.csv"
     = Some Scenario.report
  /\ rows_after (process_added Scenario.env_broken Scenario.TX_SENT
                   Scenario.handler_archive
                   (Scenario.created "/data/in/report.csv") Scenario.world)
     = []
  /\ trace_after (process_added Scenario.env_broken Scenario.TX_SENT
                    Scenario.handler_archive
                    (Scenario.created "/data/in/report.csv") Scenario.world)
     = [Connected "edc.example.org"].
Proof.
  apply (process_added_transport_failure Scenario.env_broken Scenario.TX_SENT
           Scenario.handler_archive (Scenario.created "/data/in/report.csv")
           Scenario.world "report.csv" Scenario.report Scenario.report ["text/csv"]
           (PStr "/remote/in") "/remote/in"
           (Exn (OtherException "SCPException") "connection lost"));
    try reflexivity.
  left. reflexivity.
Defined.

(** X15. When the transport reports that the target is a directory, the
    event ends without an exception and without a trace of the file: it is
    not removed, not archived and not recorded. *)
Theorem process_added_directory_in_the_way
    (env : Env) (tx_sent : string) (self : Handler) (ev : Event) (w : World)
    (filename : string) (before after : FileStat) (allowed : list string)
    (sel : pyval) (d : string) (e : exn) :
  let path := PyStr.path_join (source_dir self) filename in
  ssh_connect env (hostname self) = None ->
  PyStr.last_item (PyStr.split "/" (src_path ev)) = Some filename ->
  local_files w !! path = Some before ->
  mime_types self = Some allowed ->
  existsb (String.eqb (content_type before)) allowed = true ->
  race env (local_files w) !! path = Some after ->
  fst (select_destination_dir env self filename (content_type before) w) = Ok sel ->
  leads_to sel d ->
  scp_put env path (PyStr.path_join d filename) = Some e ->
  is_class IsADirectoryError e = true ->
  fst (process_added env tx_sent self ev w) = Ok tt
  /\ files_after (process_added env tx_sent self ev w) = race env (local_files w)
  /\ rows_after (process_added env tx_sent self ev w) = history_rows w
  /\ trace_after (process_added env tx_sent self ev w)
     = (trace w ++ [Connected (hostname self)])%list.
Proof.
  intros path H1 H2 H3 H4 H5 H6 H7 H8 H9 He.
  rewrite (process_added_transport_run env tx_sent self ev w filename before after
             allowed sel d e H1 H2 H3 H4 H5 H6 H7 H8 H9), He.
  repeat split.
Qed.

(** The theorem at a transport that finds a directory. *)
Lemma process_added_directory_in_the_way_witness :
  fst (process_added Scenario.env_directory Scenario.TX_SENT Scenario.handler_archive
         (Scenario.created "/data/in/report.csv") Scenario.world)
  = Ok tt
  /\ files_after (process_added Scenario.env_directory Scenario.TX_SENT
                    Scenario.handler_archive
                    (Scenario.created "/data/in/report.csv") Scenario.world)
     = Scenario.files
  /\ rows_after (process_added Scenario.env_directory Scenario.TX_SENT
                   Scenario.handler_archive
                   (Scenario.created "/data/in/report.csv") Scenario.world)
     = []
  /\ trace_after (process_added Scenario.env_directory Scenario.TX_SENT
                    Scenario.handler_archive
                    (Scenario.created "/data/in/report.csv") Scenario.world)
     = [Connected "edc.example.org"].
Proof.
  apply (process_added_directory_in_the_way Scenario.env_directory Scenario.TX_SENT
           Scenario.handler_archive (Scenario.created "/data/in/report.csv")
           Scenario.world "report.csv" Scenario.report Scenario.report ["text/csv"]
           (PStr "/remote/in") "/remote/in"
           (Exn IsADirectoryError "Is a directory"));
    try reflexivity.
  left. reflexivity.
Defined.





(** ** Events that are not relayed *)



(** ** The subfolder cache *)

(** the loop over the rules never writes to [_destination_subdirs] *)
Lemma for_each_rule_keeps_cache env self rules w :
  _destination_subdirs
    (snd (for_each rules
            (fun r =>
               fldr ← match remote_folder env with
                      | Some f => mret (f (destination_dir self) (folder r))
                      | None =>
                          raise (Exn AttributeError
                                   "'RemoteFolderEventHandler' object has no attribute 'remote_folder'")
                      end;
               w1 ← get_world;
               match _remote_subfolders w1 with
               | None =>
                   raise (Exn AttributeError
                            "'RemoteFolderEventHandler' object has no attribute '_remote_subfolders'")
               | Some subfolders =>
                   match subfolders !! destination_dir self with
                   | None => raise (Exn KeyError (destination_dir self))
                   | Some inner =>
                       put_world
                         (set_remote_subfolders
                            (<[ destination_dir self :=
                                  <[ file_hint r := fldr ]> (<[ name r := fldr ]> inner) ]>
                               subfolders) w1)
                   end
               end) w))
  = _destination_subdirs w.
Proof.
  revert w. induction rules as [|r rules IH]; intros w; [reflexivity|].
  cbn [for_each]. run_M.
  destruct (remote_folder env) as [f|]; [|reflexivity].
  destruct (_remote_subfolders w) as [subfolders|]; [|reflexivity].
  destruct (subfolders !! destination_dir self) as [inner|]; [|reflexivity].
  run_M. rewrite IH. reflexivity.
Qed.

(** X19. A filled cache is served as it is: when the entry of the base
    destination is a non-empty dict, [destination_subdirs] returns the
    whole cache without reading the rules and without changing anything,
    and [destination_subdir] answers from its outer keys: the inner dict
    for a key that is a cached base destination, the handler's base
    destination for every other key. *)
Theorem destination_subdirs_cache_hit
    (env : Env) (self : Handler) (w : World) (inner : gmap string string) :
  _destination_subdirs w !! destination_dir self = Some inner ->
  inner <> ∅ ->
  destination_subdirs env self w = (Ok (_destination_subdirs w), w)
  /\ forall key,
       destination_subdir env self key w
       = (match _destination_subdirs w !! key with
          | Some m => Ok (SubMap m)
          | None => Ok (SubPath (destination_dir self))
          end, w).
Proof.
  intros Hhit Hne.
  assert (E : destination_subdirs env self w = (Ok (_destination_subdirs w), w)).
  { unfold destination_subdirs. run_M. rewrite Hhit.
    rewrite bool_decide_eq_false_2 by assumption. reflexivity. }
  split; [exact E|].
  intros key. unfold destination_subdir. run_M. rewrite E.
  destruct (_destination_subdirs w !! key); reflexivity.
Qed.

(** The theorem at a cache filled for two base destinations. *)
Lemma destination_subdirs_cache_hit_witness :
  destination_subdir Scenario.env_rules Scenario.handler_delete "pdf_folder"
    Scenario.world_cached
  = (Ok (SubPath "/remote/in"), Scenario.world_cached)
  /\ destination_subdir Scenario.env_rules Scenario.handler_delete "/remote/out"
       Scenario.world_cached
     = (Ok (SubMap {[ "csv_folder" := "/remote/out/csvs" ]}), Scenario.world_cached).
Proof.
  destruct (destination_subdirs_cache_hit Scenario.env_rules Scenario.handler_delete
              Scenario.world_cached {[ "pdf_folder" := "/remote/in/pdfs" ]})
    as [_ H].
  - reflexivity.
  - intros E. apply (f_equal (fun m : gmap string string => m !! "pdf_folder")) in E.
    vm_compute in E. discriminate E.
  - split; rewrite H; reflexivity.
Defined.

(** X20. A missing or empty entry for the base destination makes
    [destination_subdirs] replace the whole cache by the single entry of
    that base with an empty dict: entries cached for other base
    destinations are dropped, and the cache is left in that state even
    when the loop over the rules raises. *)
Theorem destination_subdirs_resets_cache
    (env : Env) (self : Handler) (w : World) :
  _destination_subdirs w !! destination_dir self = None
  \/ _destination_subdirs w !! destination_dir self = Some ∅ ->
  _destination_subdirs (snd (destination_subdirs env self w))
  = {[ destination_dir self := ∅ ]}.
Proof.
  intros H. unfold destination_subdirs. run_M.
  assert (E : negb match _destination_subdirs w !! destination_dir self with
                   | Some inner => negb (bool_decide (inner = ∅))
                   | None => false
                   end = true).
  { destruct H as [-> | ->]; [reflexivity|].
    now rewrite bool_decide_eq_true_2. }
  rewrite E.
  pose proof (for_each_rule_keeps_cache env self
                (List.filter (fun r => String.eqb (base_path r) (destination_dir self))
                   (remote_folder_rows env))
                (set_destination_subdirs {[ destination_dir self := ∅ ]} w)) as Hloop.
  run_M.
  destruct (for_each _ _ _) as [[[]|e] w'] eqn:Hrun; cbn [snd] in *; exact Hloop.
Qed.

(** The theorem at a fresh instance and a rule that makes the loop raise. *)
Lemma destination_subdirs_resets_cache_witness :
  _destination_subdirs
    (snd (destination_subdirs Scenario.env_rules Scenario.handler_delete Scenario.world))
  = {[ "/remote/in" := ∅ ]}.
Proof.
  apply (destination_subdirs_resets_cache Scenario.env_rules Scenario.handler_delete
           Scenario.world).
  left. reflexivity.
Defined.

(** X21. [destination_subdir] never lets a [KeyError] out: one raised by
    the lookup of the key, and also one raised inside the property
    [destination_subdirs], ends in the base destination being returned. *)
Theorem destination_subdir_no_KeyError
    (env : Env) (self : Handler) (key : string) (w : World) (e : exn) :
  fst (destination_subdir env self key w) = Raise e ->
  is_class KeyError e = false.
Proof.
  unfold destination_subdir, try_except.
  destruct ((destination_subdirs env self ≫= _) w) as [[r|e0] w'].
  - discriminate.
  - destruct (is_class KeyError e0) eqn:E.
    + discriminate.
    + intros [= <-]. exact E.
Qed.

(** The theorem at a fresh instance with a rule: the exception that does
    come out is an [AttributeError]. *)
Lemma destination_subdir_no_KeyError_witness :
  is_class KeyError
    (Exn AttributeError
       "'RemoteFolderEventHandler' object has no attribute '_remote_subfolders'")
  = false.
Proof.
  apply (destination_subdir_no_KeyError Scenario.env_rules Scenario.handler_delete
           "pdf_folder" Scenario.world).
  reflexivity.
Defined.

(** ** Where the file ends up *)

Module PathFacts.
Import PyStr.

(** the last field of a split contains no separator *)
Lemma last_segment_no_sep c s seg :
  last_item (split c s) = Some seg -> count c seg = 0.
Proof.
  revert seg. induction s as [|a s IH]; simpl; intros seg.
  - unfold last_item. simpl. now intros [= <-].
  - destruct (Ascii.eqb a c) eqn:E.
    + pose proof (PyStrFacts.split_not_nil c s) as Hne.
      destruct (split c s) as [|w ws]; [congruence|].
      rewrite PyStrFacts.last_item_cons. apply IH.
    + destruct (split c s) as [|w ws] eqn:Es.
      * now destruct (PyStrFacts.split_not_nil c s).
      * destruct ws as [|w' ws].
        -- unfold last_item. simpl. intros [= <-]. simpl. rewrite E.
           now apply IH.
        -- rewrite PyStrFacts.last_item_cons. intros H. apply IH.
           now rewrite PyStrFacts.last_item_cons.
Qed.

(** what follows the last separator is the last field *)
Lemma split_last c p f :
  count c f = 0 -> last_item (split c (p +:+ String c f)) = Some f.
Proof.
  intros Hf. induction p as [|a p IH]; simpl.
  - rewrite Ascii.eqb_refl, (PyStrFacts.split_no_sep c f Hf). reflexivity.
  - pose proof (PyStrFacts.split_length c (p +:+ String c f)) as Hlen.
    rewrite PyStrFacts.count_app in Hlen. simpl in Hlen.
    rewrite Ascii.eqb_refl in Hlen.
    destruct (split c (p +:+ String c f)) as [|w [|w' ws]]; simpl in Hlen; try lia.
    destruct (Ascii.eqb a c); rewrite !PyStrFacts.last_item_cons;
      now rewrite PyStrFacts.last_item_cons in IH.
Qed.

Lemma ends_with c s :
  last_item (list_ascii_of_string s) = Some c -> exists p, s = p +:+ String c "".
Proof.
  induction s as [|a [|b s] IH].
  - discriminate.
  - unfold last_item. simpl. intros [= ->]. now exists "".
  - change (list_ascii_of_string (String a (String b s)))
      with (a :: b :: list_ascii_of_string s).
    rewrite PyStrFacts.last_item_cons. intros H.
    destruct (IH H) as [p Hp]. exists (String a p). simpl. now rewrite <- Hp.
Qed.

(** a name without a slash is the last segment of its join with any
    directory *)
Lemma last_segment_join dir f :
  count "/" f = 0 -> last_item (split "/" (path_join dir f)) = Some f.
Proof.
  intros Hf.
  assert (Hjoin : path_join dir f = f \/ exists p, path_join dir f = p +:+ String "/" f).
  { unfold path_join.
    assert (Hrest : (if String.eqb dir "" then f
                     else match last_item (list_ascii_of_string dir) with
                          | Some "/"%char => dir +:+ f
                          | _ => dir +:+ "/" +:+ f
                          end) = f
                    \/ exists p,
                         (if String.eqb dir "" then f
                          else match last_item (list_ascii_of_string dir) with
                               | Some "/"%char => dir +:+ f
                               | _ => dir +:+ "/" +:+ f
                               end) = p +:+ String "/" f).
    { destruct (String.eqb dir ""); [now left|]. right.
      destruct (last_item (list_ascii_of_string dir)) as [ch|] eqn:El;
        [|now exists dir].
      destruct (Ascii.eqb_spec ch "/") as [->|Hne].
      - destruct (ends_with _ _ El) as [p ->]. exists p.
        now rewrite PyStrFacts.app_assoc.
      - destruct ch as [[] [] [] [] [] [] [] []];
          try (now exists dir); congruence. }
    destruct f as [|a f]; [exact Hrest|].
    destruct (Ascii.eqb_spec a "/") as [->|Hne].
    - simpl in Hf. discriminate.
    - destruct a as [[] [] [] [] [] [] [] []]; try exact Hrest; congruence. }
  destruct Hjoin as [-> | [p ->]].
  - now rewrite (PyStrFacts.split_no_sep "/" f Hf).
  - now apply split_last.
Qed.

Lemma archive_filename_no_slash rand filename :
  count "/" filename = 0 -> count "/" (archive_filename rand filename) = 0.
Proof.
  intros Hf.
  destruct (ArchiveNameFacts.archive_filename_form filename) as (stem & ext & Hform & ->).
  destruct (random_suffix_shape rand) as [_ Hcls].
  rewrite !PyStrFacts.count_app.
  rewrite (ArchiveNameFacts.count_outside_class is_upper_or_digit "/" _ Hcls eq_refl).
  destruct (Nat.eqb (count "." filename) 1).
  - destruct Hform as (-> & _ & _). rewrite !PyStrFacts.count_app in Hf.
    simpl in *. lia.
  - destruct Hform as [-> ->]. simpl. lia.
Qed.

(** the archive path is never the source path, whatever the two
    directories are *)
Lemma archive_path_differs rand source_dir archive_dir path filename :
  last_item (split "/" path) = Some filename ->
  path_join archive_dir (archive_filename rand filename)
  <> path_join source_dir filename.
Proof.
  intros Hname E.
  pose proof (last_segment_no_sep _ _ _ Hname) as Hf.
  pose proof (last_segment_join source_dir filename Hf) as H1.
  pose proof (last_segment_join archive_dir _ (archive_filename_no_slash rand _ Hf)) as H2.
  rewrite E, H1 in H2. injection H2 as H2.
  now apply (ArchiveNameFacts.archive_filename_differs rand filename).
Qed.

End PathFacts.

(** X22. After a transfer with archiving in which the copy and the rename
    succeed, the file is in the archive directory under the generated
    name, with the metadata it had when it was copied, and no longer at its
    source path: the two paths always differ, also when the archive
    directory is the source directory.  Every other local file is
    untouched. *)
Theorem process_added_archive_moves_file
    (env : Env) (tx_sent : string) (self : Handler) (ev : Event) (w : World)
    (filename : string) (before after : FileStat) (allowed : list string)
    (sel : pyval) (d dir : string) :
  let path := PyStr.path_join (source_dir self) filename in
  let a := archive_filename (fun i => entropy env (drawn w + i)) filename in
  let r := process_added env tx_sent self ev w in
  ssh_connect env (hostname self) = None ->
  PyStr.last_item (PyStr.split "/" (src_path ev)) = Some filename ->
  local_files w !! path = Some before ->
  mime_types self = Some allowed ->
  existsb (String.eqb (content_type before)) allowed = true ->
  race env (local_files w) !! path = Some after ->
  fst (select_destination_dir env self filename (content_type before) w) = Ok sel ->
  leads_to sel d ->
  scp_put env path (PyStr.path_join d filename) = None ->
  archive_dir self = Some dir ->
  dir <> "" ->
  rename_error env path (PyStr.path_join dir a) = None ->
  fst r = Ok tt
  /\ files_after r !! PyStr.path_join dir a = Some after
  /\ files_after r !! path = None
  /\ forall p, p <> path -> p <> PyStr.path_join dir a ->
               files_after r !! p = race env (local_files w) !! p.
Proof.
  intros path a r Hconnect Hname Hbefore Hallow Hlisted Hafter Hsel Hlead Hcopy Hdir Hne
    Hrename.
  destruct (process_added_archives_run env tx_sent self ev w filename before after
              allowed sel d Hconnect Hname Hbefore Hallow Hlisted Hafter Hsel Hlead
              Hcopy dir Hdir Hne)
    as (row & _ & _ & _ & _ & Hrun).
  fold path in Hrun. fold a in Hrun. rewrite Hrename in Hrun.
  destruct Hrun as (Hok & _ & Hfiles).
  subst r. split; [exact Hok|]. rewrite Hfiles.
  pose proof (PathFacts.archive_path_differs
                (fun i => entropy env (drawn w + i)) (source_dir self) dir
                (src_path ev) filename Hname) as Hdiff.
  fold path in Hdiff. fold a in Hdiff.
  repeat split.
  - apply lookup_insert_eq.
  - rewrite lookup_insert_ne by assumption. apply lookup_delete_eq.
  - intros p Hp Hpa. rewrite lookup_insert_ne by congruence.
    apply lookup_delete_ne. congruence.
Qed.

(** The theorem at "report.csv", archived into the source directory
    itself. *)
Lemma process_added_archive_moves_file_witness :
  files_after (process_added Scenario.env_plain Scenario.TX_SENT Scenario.handler_in_place
                 (Scenario.created "/data/in/report.csv") Scenario.world)
    !! "/data/in/report_4BIPW.csv"
  = Some Scenario.report
  /\ files_after (process_added Scenario.env_plain Scenario.TX_SENT
                    Scenario.handler_in_place
                    (Scenario.created "/data/in/report.csv") Scenario.world)
       !! "/data/in/report.csv"
     = None.
Proof.
  destruct (process_added_archive_moves_file Scenario.env_plain Scenario.TX_SENT
              Scenario.handler_in_place (Scenario.created "/data/in/report.csv")
              Scenario.world "report.csv" Scenario.report Scenario.report
              ["text/csv"] (PStr "/remote/in") "/remote/in" "/data/in")
    as (_ & Harchived & Hsource & _);
    try reflexivity.
  - left. reflexivity.
  - discriminate.
  - split; assumption.
Defined.


